(** * Hospital IT reporting system: policy rules of the two back ends

    The repository derives three things from stored records:
    - the compliance status of a certificate, in the React component
      [ComplianceManagement.tsx] ([getComplianceStatus]);
    - the next maintenance date of a device, in the PL/pgSQL trigger
      [update_next_maintenance_date] of the migration;
    - the escalation of a request, in the PL/pgSQL trigger
      [check_request_escalation] of the migration.
    The document-store service ([firebaseService.ts]) writes requests with
    [createRequest] and runs none of these rules.

    Every definition below follows the source text statement by statement.
    SQL values are nullable ([option]), SQL conditions are three-valued, a
    JavaScript object is a finite map from property names to values. *)

From stdpp Require Import gmap strings list fin_maps.
From Stdlib Require Import ZArith Lia.

(** ** Calendar dates

    A calendar date is a day number (days since 1970-01-01, proleptic
    Gregorian calendar). The two conversions are only used to write dates
    down as year-month-day; the rules themselves add and compare day
    numbers. *)
Module Calendar.
Local Open Scope Z_scope.

Definition days_from_civil (y m d : Z) : Z :=
  let y' := if m <=? 2 then y - 1 else y in
  let era := y' / 400 in
  let yoe := y' - era * 400 in
  let mp := (m + 9) mod 12 in
  let doy := (153 * mp + 2) / 5 + d - 1 in
  let doe := yoe * 365 + yoe / 4 - yoe / 100 + doy in
  era * 146097 + doe - 719468.

Definition civil_from_days (z : Z) : Z * Z * Z :=
  let z := z + 719468 in
  let era := z / 146097 in
  let doe := z - era * 146097 in
  let yoe := (doe - doe / 1460 + doe / 36524 - doe / 146096) / 365 in
  let y := yoe + era * 400 in
  let doy := doe - (365 * yoe + yoe / 4 - yoe / 100) in
  let mp := (5 * doy + 2) / 153 in
  let d := doy - (153 * mp + 2) / 5 + 1 in
  let m := if mp <? 10 then mp + 3 else mp - 9 in
  (if m <=? 2 then y + 1 else y, m, d).

End Calendar.

(** ** The relational back end (migration [20250909144510_cool_dune.sql]) *)
Module Sql.
Local Open Scope Z_scope.

Definition uuid := string.
(** The [date] column type: a day number. *)
Definition date := Z.

(** *** Three-valued conditions

    A condition evaluates to true, false or NULL ([None]). An [IF] takes
    its branch only when the condition is true. *)
Definition sql_bool := option bool.

Definition sql_eq `{EqDecision A} (a b : option A) : sql_bool :=
  match a, b with
  | Some x, Some y => Some (bool_decide (x = y))
  | _, _ => None
  end.

Definition sql_or (a b : sql_bool) : sql_bool :=
  match a, b with
  | Some true, _ | _, Some true => Some true
  | Some false, Some false => Some false
  | _, _ => None
  end.

Definition sql_is_not_null {A} (a : option A) : sql_bool :=
  Some (bool_decide (is_Some a)).

(** [x IN (subquery)] where the subquery yields non-null keys. *)
Definition sql_in `{EqDecision A} (a : option A) (l : list A) : sql_bool :=
  match a, l with
  | _, [] => Some false
  | None, _ :: _ => None
  | Some x, _ :: _ => Some (bool_decide (x ∈ l))
  end.

Definition if_true (c : sql_bool) : bool :=
  match c with Some true => true | _ => false end.

(** [COALESCE(a, b)] with a non-null second argument. *)
Definition coalesce {A} (a : option A) (b : A) : option A := Some (default b a).

(** [INTERVAL '1 day' * n]: an interval of [n] days, NULL when [n] is. *)
Definition interval_days (n : option Z) : option Z := n.

(** *** Outcome of a trigger function *)

(** [InvalidConfiguration] is the one error kind the specification names;
    the migration declares no error of its own and has no RAISE statement.
    [datetime_field_overflow] is the engine's error of date arithmetic out
    of range (SQLSTATE 22008). *)
Inductive exception := InvalidConfiguration | datetime_field_overflow.

(** A PL/pgSQL function either returns a row or raises. *)
Inductive outcome (A : Type) :=
| Returned (a : A)
| Raised (e : exception).
Arguments Returned {A} a.
Arguments Raised {A} e.

(** *** Date arithmetic

    [date + interval] goes through the engine's [timestamp] type, whose
    values run from 4714-11-24 BC up to, not including, 294277-01-01: the
    date is converted to a timestamp, the days are added, and either step
    raises when it leaves that range. A NULL operand gives NULL. The sum is
    then stored back into a [date] column. The special dates infinity and
    -infinity are not modelled. *)
Definition timestamp_min : date := Calendar.days_from_civil (-4713) 11 24.
Definition timestamp_end : date := Calendar.days_from_civil 294277 1 1.

Definition in_timestamp_range (d : date) : Prop :=
  timestamp_min ≤ d ∧ d < timestamp_end.

#[global] Instance in_timestamp_range_dec (d : date) : Decision (in_timestamp_range d) :=
  ltac:(unfold in_timestamp_range; apply _).

Definition date_plus_interval (d : option date) (iv : option Z)
    : outcome (option date) :=
  match d, iv with
  | Some d, Some n =>
      if bool_decide (in_timestamp_range d ∧ in_timestamp_range (d + n))
      then Returned (Some (d + n))
      else Raised datetime_field_overflow
  | _, _ => Returned None
  end.

(** *** Tables *)
Module equipment_types.
Record row := mk {
  id : uuid;
  name : string;
  is_medical_device : option bool;
  requires_certification : option bool;
  maintenance_interval_days : option Z  (* integer DEFAULT 90, nullable *)
}.
End equipment_types.

Module devices.
Record row := mk {
  id : uuid;
  name : string;
  equipment_type_id : option uuid;
  location : option string;
  is_critical : option bool;
  last_maintenance_date : option date;
  next_maintenance_date : option date;
  compliance_status : option string
}.

Definition set_next_maintenance_date (v : option date) (r : row) : row :=
  mk (id r) (name r) (equipment_type_id r) (location r) (is_critical r)
     (last_maintenance_date r) v (compliance_status r).
End devices.

Module departments.
Record row := mk {
  id : uuid;
  name : string;
  code : string;
  is_critical : option bool  (* boolean DEFAULT false, nullable *)
}.
End departments.

Module requests.
Record row := mk {
  id : uuid;
  title : string;
  department_id : option uuid;
  priority : option string;        (* text DEFAULT 'medium' *)
  urgency_level : option string;   (* text DEFAULT 'routine' *)
  patient_impact : option bool;    (* boolean DEFAULT false *)
  status : string
}.

Definition set_priority (v : option string) (r : row) : row :=
  mk (id r) (title r) (department_id r) v (urgency_level r)
     (patient_impact r) (status r).

Definition set_patient_impact (v : option bool) (r : row) : row :=
  mk (id r) (title r) (department_id r) (priority r) (urgency_level r)
     v (status r).
End requests.

(** *** [update_next_maintenance_date]

    [SELECT expr INTO NEW.next_maintenance_date FROM equipment_types et
     WHERE et.id = NEW.equipment_type_id]: the target receives the value
    of the first row found, and NULL when no row is found. *)
Definition select_next_maintenance_date
    (CURRENT_DATE : date) (equipment_types : list equipment_types.row)
    (NEW : devices.row) : outcome (option date) :=
  match filter (λ et, if_true (sql_eq (Some (equipment_types.id et))
                                      (devices.equipment_type_id NEW)) = true)
               equipment_types with
  | [] => Returned None
  | et :: _ =>
      date_plus_interval
        (coalesce (devices.last_maintenance_date NEW) CURRENT_DATE)
        (interval_days (equipment_types.maintenance_interval_days et))
  end.

Definition update_next_maintenance_date
    (CURRENT_DATE : date) (equipment_types : list equipment_types.row)
    (NEW : devices.row) : outcome devices.row :=
  if if_true (sql_is_not_null (devices.equipment_type_id NEW)) then
    match select_next_maintenance_date CURRENT_DATE equipment_types NEW with
    | Returned next => Returned (devices.set_next_maintenance_date next NEW)
    | Raised e => Raised e
    end
  else Returned NEW.

(** *** [check_request_escalation] *)

(** [SELECT id FROM departments WHERE is_critical = true] *)
Definition critical_department_ids (departments : list departments.row) : list uuid :=
  departments.id <$>
    filter (λ d, if_true (sql_eq (departments.is_critical d) (Some true)) = true)
           departments.

(** First [IF]: auto-escalate emergency requests. *)
Definition escalate_priority (NEW : requests.row) : requests.row :=
  if if_true (sql_or (sql_eq (requests.urgency_level NEW) (Some "emergency"))
                     (sql_eq (requests.urgency_level NEW) (Some "critical")))
  then requests.set_priority (Some "urgent") NEW
  else NEW.

(** Second [IF]: set the patient-impact flag for critical departments. *)
Definition flag_patient_impact
    (departments : list departments.row) (NEW : requests.row) : requests.row :=
  if if_true (sql_in (requests.department_id NEW)
                     (critical_department_ids departments))
  then requests.set_patient_impact (Some true) NEW
  else NEW.

Definition check_request_escalation
    (departments : list departments.row) (NEW : requests.row)
    : outcome requests.row :=
  let NEW := escalate_priority NEW in
  let NEW := flag_patient_impact departments NEW in
  Returned NEW.
End Sql.


(** ** The compliance screen ([ComplianceManagement.tsx]) *)
Module Compliance.
Local Open Scope Z_scope.

(** A JavaScript [Date]: its time value in milliseconds since the epoch,
    [None] for an Invalid Date (time value NaN). *)
Definition Date := option Z.

(** date-fns [isBefore]: compares the two time values with [<]; a
    comparison with NaN is false. *)
Definition isBefore (date dateToCompare : Date) : bool :=
  match date, dateToCompare with
  | Some a, Some b => bool_decide (a < b)
  | _, _ => false
  end.

(** What the component takes from its host and from date-fns, whose code is
    not part of the repository: the [Date] constructor on a string, and
    [addDays], which adds calendar days in the host's time zone. *)
Class Host := {
  new_Date : string → Date;
  addDays : Date → Z → Date
}.

(** The records the component lists and edits. *)
Record ComplianceRecord := {
  id : string;
  device_id : string;
  compliance_type : string;
  certificate_number : option string;
  issue_date : option string;
  expiry_date : option string;
  status : string;
  auditor_name : option string;
  notes : option string
}.

Record Device := {
  dev_id : string;
  dev_name : string;
  dev_model : option string
}.

Record FormData := {
  form_device_id : string;
  form_compliance_type : string;
  form_certificate_number : string;
  form_issue_date : string;
  form_expiry_date : string;
  form_auditor_name : string;
  form_notes : string
}.

(** The shape of the [recordData] object literal in [handleSubmit]. *)
Record RecordData := {
  data_device_id : string;
  data_compliance_type : string;
  data_certificate_number : option string;
  data_issue_date : option string;
  data_expiry_date : option string;
  data_auditor_name : option string;
  data_notes : option string;
  data_status : string
}.

(** The component's state (its [useState] cells) and, in [World], the wall
    clock read by [new Date()]. *)
Record State := {
  records : list ComplianceRecord;
  devices : list Device;
  loading : bool;
  showForm : bool;
  editingRecord : option ComplianceRecord;
  formData : FormData
}.

Record World := {
  clock : Z;
  state : State
}.

(** [!expiryDate] on a [string | null]: true for [null] and for the empty
    string. *)
Definition falsy (s : option string) : bool :=
  match s with
  | None => true
  | Some s => bool_decide (s = "")
  end.

Definition getComplianceStatus `{Host} (w : World) (expiryDate : option string) : string :=
  if falsy expiryDate then "valid" else
  let expiry := new_Date (default "" expiryDate) in
  let now := Some (clock w) in
  let thirtyDaysFromNow := addDays now 30 in
  if isBefore expiry now then "expired"
  else if isBefore expiry thirtyDaysFromNow then "pending_renewal"
  else "valid".

(** [s || null] on a string. *)
Definition or_null (s : string) : option string :=
  if bool_decide (s = "") then None else Some s.

(** The [recordData] object that [handleSubmit] writes. *)
Definition recordData `{Host} (w : World) : RecordData :=
  let f := formData (state w) in
  {| data_device_id := form_device_id f;
     data_compliance_type := form_compliance_type f;
     data_certificate_number := or_null (form_certificate_number f);
     data_issue_date := or_null (form_issue_date f);
     data_expiry_date := or_null (form_expiry_date f);
     data_auditor_name := or_null (form_auditor_name f);
     data_notes := or_null (form_notes f);
     data_status := getComplianceStatus w (Some (form_expiry_date f)) |}.

(** The words of the rule: an expiry date is absent when the field is
    [null] or empty; one date is before another when both are valid dates
    and the first time value is the smaller. *)
Definition absent (expiryDate : option string) : Prop :=
  expiryDate = None ∨ expiryDate = Some "".

Definition before (a b : Date) : Prop :=
  match a, b with
  | Some x, Some y => x < y
  | _, _ => False
  end.

(** *** A host in UTC, for concrete evaluations

    The [Date] constructor of this host reads the date-only form
    YYYY-MM-DD of ECMAScript as midnight UTC of that day, and no other
    text: the standard leaves every other text to the engine, and engines
    read more (V8 reads "2024-1-15", this host does not). The evaluations
    below use it at date-only texts and at texts no engine reads. [addDays]
    in UTC adds 86400000 ms per day. *)
Definition digit (a : Ascii.ascii) : option Z :=
  let n := Z.of_nat (Ascii.nat_of_ascii a) in
  if bool_decide (48 ≤ n ≤ 57) then Some (n - 48) else None.

Fixpoint digits (acc : Z) (s : string) : option Z :=
  match s with
  | EmptyString => Some acc
  | String a s => d ← digit a; digits (10 * acc + d) s
  end.

Definition ms_per_day : Z := 86400000.

Definition parse_iso_date (s : string) : Date :=
  if bool_decide (String.length s = 10%nat ∧ String.substring 4 1 s = "-" ∧ String.substring 7 1 s = "-") then
    y ← digits 0 (String.substring 0 4 s);
    m ← digits 0 (String.substring 5 2 s);
    d ← digits 0 (String.substring 8 2 s);
    if bool_decide (1 ≤ m ≤ 12 ∧ 1 ≤ d ≤ 31)
    then Some (Calendar.days_from_civil y m d * ms_per_day) else None
  else None.

Definition utc_host : Host := {|
  new_Date := parse_iso_date;
  addDays := λ date amount, (λ t, t + amount * ms_per_day) <$> date
|}.
End Compliance.

(** ** The document-store service ([firebaseService.ts]) *)
Module Firestore.

(** Field values of a document. [ServerTimestamp] is the sentinel returned
    by [serverTimestamp()]. *)
Inductive value :=
| Null
| Bool (b : bool)
| Number (z : Z)
| Str (s : string)
| ServerTimestamp.

(** A document (a JavaScript object): property name to value.
    A collection: document id to document. A database: collection name to
    collection. *)
Abbreviation document := (gmap string value).
Abbreviation collection := (gmap string (gmap string value)).
Abbreviation database := (gmap string (gmap string (gmap string value))).

(** [addDoc(collection(db, name), data)]: stores [data] under a document id
    chosen by the store and returns the reference to it. *)
Definition addDoc (db : database) (name : string) (autoId : string) (data : document)
    : string * database :=
  (autoId, <[name := <[autoId := data]> (default ∅ (db !! name))]> db).

(** The object literal [{...requestData, status: 'pending',
    createdAt: serverTimestamp(), updatedAt: serverTimestamp()}]: later
    properties replace earlier ones of the same name. *)
Definition request_document (requestData : document) : document :=
  <["updatedAt" := ServerTimestamp]>
    (<["createdAt" := ServerTimestamp]>
      (<["status" := Str "pending"]> requestData)).

Definition createRequest (autoId : string) (requestData : document) (db : database)
    : string * database :=
  addDoc db "requests" autoId (request_document requestData).

(** The three property names the object literal writes after the spread. *)
Definition written_keys : list string := ["status"; "createdAt"; "updatedAt"].

(** Reading a document back by its reference. *)
Definition getDoc (db : database) (name : string) (docId : string) : option document :=
  c ← db !! name; c !! docId.
End Firestore.


(** ** Specification-side vocabulary

    The notions the properties are phrased in, independent of how the
    triggers test them. *)
Module Policy.
Import Sql.

(** The urgency levels that escalate a request. *)
Definition urgency_escalates (urgency_level : option string) : Prop :=
  urgency_level = Some "emergency" ∨ urgency_level = Some "critical".

(** The request's department is a row of [departments] flagged critical. *)
Definition department_is_critical
    (departments : list departments.row) (department_id : option uuid) : Prop :=
  ∃ d, d ∈ departments ∧ department_id = Some (departments.id d)
       ∧ departments.is_critical d = Some true.

(** The ordered scale low < medium < high < urgent; other texts and NULL
    are not on the scale. *)
Definition priority_rank (priority : option string) : option nat :=
  match priority with
  | None => None
  | Some p =>
      if bool_decide (p = "low") then Some 0%nat
      else if bool_decide (p = "medium") then Some 1%nat
      else if bool_decide (p = "high") then Some 2%nat
      else if bool_decide (p = "urgent") then Some 3%nat
      else None
  end.

(** The base date of the maintenance rule: the last maintenance date when
    there is one, the evaluation date otherwise. *)
Definition base_date (CURRENT_DATE : date) (NEW : devices.row) : date :=
  default CURRENT_DATE (devices.last_maintenance_date NEW).
End Policy.

(** ** Rows used in the concrete evaluations

    Equipment types and departments are rows the migration inserts (the
    keys are generated by the database; short names stand for them). *)
Module Samples.
Import Sql.
Local Open Scope Z_scope.

Definition mri_machine : equipment_types.row :=
  equipment_types.mk "et-mri" "MRI Machine" (Some true) (Some true) (Some 30).
Definition ultrasound : equipment_types.row :=
  equipment_types.mk "et-ultrasound" "Ultrasound" (Some true) (Some true) (Some 90).
Definition ventilator : equipment_types.row :=
  equipment_types.mk "et-ventilator" "Ventilator" (Some true) (Some true) (Some 7).
(** A type whose interval was set to zero: the column has no CHECK. *)
Definition zero_interval : equipment_types.row :=
  equipment_types.mk "et-zero" "Decommissioned" (Some false) (Some false) (Some 0).
(** A type whose interval was set negative. *)
Definition negative_interval : equipment_types.row :=
  equipment_types.mk "et-negative" "Misconfigured" (Some false) (Some false) (Some (-5)).

Definition equipment_types_table : list equipment_types.row :=
  [mri_machine; ultrasound; ventilator; zero_interval; negative_interval].

Definition emergency_department : departments.row :=
  departments.mk "dep-ed" "Emergency Department" "ED" (Some true).
Definition cardiology : departments.row :=
  departments.mk "dep-card" "Cardiology" "CARD" (Some false).
Definition it_department : departments.row :=
  departments.mk "dep-it" "IT Department" "IT" (Some false).

Definition departments_table : list departments.row :=
  [emergency_department; cardiology; it_department].

Definition jan_1_2024 : date := Calendar.days_from_civil 2024 1 1.
Definition jan_31_2024 : date := Calendar.days_from_civil 2024 1 31.
Definition mar_31_2024 : date := Calendar.days_from_civil 2024 3 31.
Definition jun_1_2024 : date := Calendar.days_from_civil 2024 6 1.

(** An ultrasound device that was never maintained. *)
Definition new_ultrasound : devices.row :=
  devices.mk "dev-1" "Ultrasound 1" (Some "et-ultrasound") (Some "Radiology")
             (Some false) None None (Some "compliant").
(** An MRI machine last maintained on 2024-01-01. *)
Definition maintained_mri : devices.row :=
  devices.mk "dev-2" "MRI 1" (Some "et-mri") (Some "Radiology")
             (Some true) (Some jan_1_2024) None (Some "compliant").
(** A device with no equipment type, written with a next maintenance date. *)
Definition untyped_device : devices.row :=
  devices.mk "dev-3" "Label printer" None None (Some false) None
             (Some jun_1_2024) (Some "compliant").
(** A device with no equipment type and no dates at all. *)
Definition bare_device : devices.row :=
  devices.mk "dev-4" "Spare monitor" None None (Some false) None None
             (Some "compliant").
Definition zero_interval_device : devices.row :=
  devices.mk "dev-5" "Old terminal" (Some "et-zero") None (Some false) None None
             (Some "compliant").
Definition negative_interval_device : devices.row :=
  devices.mk "dev-6" "Test rig" (Some "et-negative") None (Some false) None None
             (Some "compliant").

Definition emergency_low_request : requests.row :=
  requests.mk "req-1" "Ventilator alarm" (Some "dep-card") (Some "low")
              (Some "emergency") (Some false) "pending".
Definition routine_high_request : requests.row :=
  requests.mk "req-2" "Workstation slow" (Some "dep-ed") (Some "high")
              (Some "routine") (Some false) "pending".
End Samples.

(** ** Values used in the concrete evaluations of the two front ends *)
Module Examples.
Import Compliance Firestore.
Local Open Scope Z_scope.

Definition empty_form : FormData := {|
  form_device_id := "";
  form_compliance_type := "FDA";
  form_certificate_number := "";
  form_issue_date := "";
  form_expiry_date := "";
  form_auditor_name := "";
  form_notes := ""
|}.

Definition fda_form (expiry : string) : FormData := {|
  form_device_id := "dev-2";
  form_compliance_type := "FDA";
  form_certificate_number := "K-1024";
  form_issue_date := "2023-02-01";
  form_expiry_date := expiry;
  form_auditor_name := "";
  form_notes := ""
|}.

Definition stale_record : ComplianceRecord := {|
  id := "c-1";
  device_id := "dev-2";
  compliance_type := "FDA";
  certificate_number := None;
  issue_date := None;
  expiry_date := Some "2023-12-31";
  status := "valid";
  auditor_name := None;
  notes := None
|}.

(** Noon UTC on 2024-01-01. *)
Definition noon_jan_1_2024 : Z :=
  Calendar.days_from_civil 2024 1 1 * ms_per_day + 12 * 3600000.

(** The screen right after loading, and the screen while a record is being
    edited, both at noon on 2024-01-01. *)
Definition fresh_screen : World := {|
  clock := noon_jan_1_2024;
  state := {| records := []; devices := []; loading := true; showForm := false;
              editingRecord := None; formData := empty_form |}
|}.

Definition editing_screen : World := {|
  clock := noon_jan_1_2024;
  state := {| records := [stale_record];
              devices := [{| dev_id := "dev-2"; dev_name := "MRI 1"; dev_model := None |}];
              loading := false; showForm := true;
              editingRecord := Some stale_record;
              formData := fda_form "2024-01-15" |}
|}.

(** The payload [RequestModal] sends for an emergency request of a
    critical department, entered with priority low. *)
Definition emergency_payload : gmap string value :=
  <["userId" := Str "u-1"]>
    (<["requestTypeId" := Str "rt-1"]>
      (<["departmentId" := Str "dep-ed"]>
        (<["title" := Str "Anesthesia machine malfunction"]>
          (<["description" := Str "Oxygen sensor errors"]>
            (<["priority" := Str "low"]>
              (<["urgencyLevel" := Str "emergency"]>
                (<["patientImpact" := Bool false]>
                  (<["estimatedDowntime" := Null]> ∅)))))))).

(** A payload that carries a status of its own. *)
Definition payload_with_status : gmap string value :=
  <["title" := Str "Emergency: Anesthesia Machine Malfunction"]>
    (<["priority" := Str "urgent"]>
      (<["urgencyLevel" := Str "emergency"]>
        (<["patientImpact" := Bool true]>
          (<["status" := Str "in_progress"]> ∅)))).
End Examples.

(** ** The rest of the compliance screen ([ComplianceManagement.tsx]) *)
Module ComplianceScreen.
Import Compliance.

(** The initial value of the form, also the value [resetForm] restores. *)
Definition initial_form : FormData := {|
  form_device_id := "";
  form_compliance_type := "FDA";
  form_certificate_number := "";
  form_issue_date := "";
  form_expiry_date := "";
  form_auditor_name := "";
  form_notes := ""
|}.

(** [startEdit(record)]: [x || ''] on a [string | null] is [default "" x]. *)
Definition startEdit (record : ComplianceRecord) (st : State) : State := {|
  records := records st;
  devices := devices st;
  loading := loading st;
  showForm := true;
  editingRecord := Some record;
  formData := {|
    form_device_id := device_id record;
    form_compliance_type := compliance_type record;
    form_certificate_number := default "" (certificate_number record);
    form_issue_date := default "" (issue_date record);
    form_expiry_date := default "" (expiry_date record);
    form_auditor_name := default "" (auditor_name record);
    form_notes := default "" (notes record)
  |}
|}.

Definition resetForm (st : State) : State := {|
  records := records st;
  devices := devices st;
  loading := loading st;
  showForm := false;
  editingRecord := None;
  formData := initial_form
|}.

(** The row the database holds after [recordData] is written under key
    [record_id]. *)
Definition stored_record (record_id : string) (d : RecordData) : ComplianceRecord := {|
  id := record_id;
  device_id := data_device_id d;
  compliance_type := data_compliance_type d;
  certificate_number := data_certificate_number d;
  issue_date := data_issue_date d;
  expiry_date := data_expiry_date d;
  status := data_status d;
  auditor_name := data_auditor_name d;
  notes := data_notes d
|}.

Definition getStatusColor (status : string) : string :=
  if bool_decide (status = "valid") then "bg-green-100 text-green-700"
  else if bool_decide (status = "pending_renewal") then "bg-yellow-100 text-yellow-700"
  else if bool_decide (status = "expired") then "bg-red-100 text-red-700"
  else "bg-gray-100 text-gray-700".

(** [getStatusIcon]: the icon component and its class. *)
Definition getStatusIcon (status : string) : string * string :=
  if bool_decide (status = "valid") then ("ShieldCheckIcon", "h-5 w-5 text-green-500")
  else if bool_decide (status = "pending_renewal")
       then ("ExclamationTriangleIcon", "h-5 w-5 text-yellow-500")
  else if bool_decide (status = "expired")
       then ("ExclamationTriangleIcon", "h-5 w-5 text-red-500")
  else ("ShieldCheckIcon", "h-5 w-5 text-gray-500").

(** The two counters above the table. *)
Definition expiredRecords (st : State) : nat :=
  length (filter (λ r, status r = "expired") (records st)).

Definition pendingRenewal (st : State) : nat :=
  length (filter (λ r, status r = "pending_renewal") (records st)).
End ComplianceScreen.

(** ** User registration ([handle_new_user] of the first migration) *)
Module Registration.
Import Sql.

Inductive user_role := admin | user.

(** A field of a [jsonb] object as the operator [->>] reads it: JSON null
    reads as NULL, a JSON string as its text, any other value as the text
    of its JSON form, carried here. *)
Inductive json_field :=
| JsonNull
| JsonString (s : string)
| JsonOther (text : string).

(** [j ->> key]; [None] for [j] stands for a NULL or a JSON value that is
    not an object. *)
Definition json_get_text (j : option (gmap string json_field)) (key : string)
    : option string :=
  match j with
  | None => None
  | Some o =>
      match o !! key with
      | None | Some JsonNull => None
      | Some (JsonString s) => Some s
      | Some (JsonOther text) => Some text
      end
  end.

(** [COALESCE(a, b)] with both arguments nullable. *)
Definition coalesce_null {A} (a b : option A) : option A :=
  match a with Some x => Some x | None => b end.

Module auth_users.
Record row := mk {
  id : uuid;
  email : option string;
  raw_user_meta_data : option (gmap string json_field)
}.
End auth_users.

Module profiles.
Record row := mk {
  id : uuid;
  user_id : uuid;       (* UNIQUE NOT NULL *)
  email : string;       (* NOT NULL *)
  full_name : string;   (* NOT NULL *)
  role : option user_role;
  department : option string
}.
End profiles.

Inductive sql_error :=
| not_null_violation (column : string)
| unique_violation (constraint : string).

(** [INSERT INTO profiles (user_id, email, full_name, role) VALUES ...]:
    [id] takes its default [gen_random_uuid()], [department] stays NULL;
    the NOT NULL columns and the two unique keys are checked. *)
Definition insert_profile (gen_random_uuid : uuid) (user_id : uuid)
    (email full_name : option string) (role : option user_role)
    (table : list profiles.row) : sql_error + list profiles.row :=
  match email, full_name with
  | None, _ => inl (not_null_violation "email")
  | Some _, None => inl (not_null_violation "full_name")
  | Some e, Some f =>
      if bool_decide (gen_random_uuid ∈ profiles.id <$> table)
      then inl (unique_violation "profiles_pkey")
      else if bool_decide (user_id ∈ profiles.user_id <$> table)
      then inl (unique_violation "profiles_user_id_key")
      else inr (table ++ [profiles.mk gen_random_uuid user_id e f role None])
  end.

Definition handle_new_user (gen_random_uuid : uuid) (NEW : auth_users.row)
    (table : list profiles.row) : sql_error + list profiles.row :=
  insert_profile gen_random_uuid
    (auth_users.id NEW)
    (auth_users.email NEW)
    (coalesce_null (json_get_text (auth_users.raw_user_meta_data NEW) "full_name")
                   (auth_users.email NEW))
    (if if_true (sql_eq (auth_users.email NEW) (Some "mhiskall123@gmail.com"))
     then Some admin else Some user)
    table.
End Registration.

(** ** Status updates of the admin screen ([RequestManagement.tsx]) *)
Module RequestAdmin.

(** The [updateData] object of [updateRequestStatus]. The two calls of
    [new Date().toISOString()] give [now1] and [now2]; a non-empty string
    is truthy. *)
Definition updateData (newStatus resolutionNotes now1 now2 : string)
    : gmap string string :=
  let updateData := <["updated_at" := now1]> (<["status" := newStatus]> ∅) in
  if bool_decide (newStatus = "completed") && negb (bool_decide (resolutionNotes = ""))
  then <["completed_at" := now2]> (<["resolution_notes" := resolutionNotes]> updateData)
  else updateData.
End RequestAdmin.

(** ** The other operations of the document-store service *)
Module FirestoreService.
Import Firestore.

Inductive firestore_error := not_found.

(** A property name of an update that names a field of the document
    itself: it holds no dot. For [updateDoc] a name with a dot is a path
    into a nested map. *)
Definition field_name (k : string) : Prop := String.index 0 "." k = None.

Definition top_level_fields (updates : document) : Prop :=
  ∀ k, is_Some (updates !! k) → field_name k.

(** [updateDoc(doc(db, name, docId), updates)]: fails when the document
    does not exist; otherwise the named fields are replaced and the others
    kept. Whether it succeeds does not depend on the names; the fields it
    writes are given here for updates of [top_level_fields] only, the
    documents of this model holding no nested map. *)
Definition updateDoc (db : database) (name docId : string) (updates : document)
    : firestore_error + database :=
  match getDoc db name docId with
  | None => inl not_found
  | Some old => inr (<[name := <[docId := updates ∪ old]> (default ∅ (db !! name))]> db)
  end.

(** [deleteDoc(doc(db, name, docId))]: succeeds whether or not the document
    exists. *)
Definition deleteDoc (db : database) (name docId : string) : database :=
  alter (delete docId) name db.

Definition createProfile (userId : string) (profileData : document) (db : database)
    : firestore_error + database :=
  updateDoc db "profiles" userId
    (<["updatedAt" := ServerTimestamp]> (<["createdAt" := ServerTimestamp]> profileData)).

(** [{ id: snap.id, ...snap.data() }]: a field [id] of the data replaces
    the document id. *)
Definition with_id (docId : string) (data : document) : document :=
  data ∪ {["id" := Str docId]}.

Definition getProfile (db : database) (userId : string) : option document :=
  match getDoc db "profiles" userId with
  | Some data => Some (with_id userId data)
  | None => None
  end.

Definition updateProfile (userId : string) (updates : document) (db : database)
    : firestore_error + database :=
  updateDoc db "profiles" userId (<["updatedAt" := ServerTimestamp]> updates).

Definition updateRequest (requestId : string) (updates : document) (db : database)
    : firestore_error + database :=
  updateDoc db "requests" requestId (<["updatedAt" := ServerTimestamp]> updates).

Definition deleteDevice (deviceId : string) (db : database) : database :=
  deleteDoc db "devices" deviceId.

Definition createIncident (autoId : string) (incidentData : document) (db : database)
    : string * database :=
  addDoc db "incidents" autoId
    (<["createdAt" := ServerTimestamp]> (<["status" := Str "open"]> incidentData)).
End FirestoreService.

(** ** The request form ([RequestModal.tsx]) *)
Module RequestModal.
Import Firestore.

Inductive modal_type := issue | equipment | emergency.

Record FormData := {
  requestTypeId : string;
  departmentId : string;
  title : string;
  description : string;
  priority : string;
  urgencyLevel : string;
  patientImpact : bool;
  estimatedDowntime : string
}.

(** The form as the effect resets it when the modal opens. *)
Definition reset_form (type : modal_type) : FormData := {|
  requestTypeId := "";
  departmentId := "";
  title := "";
  description := "";
  priority := "medium";
  urgencyLevel := match type with emergency => "emergency" | _ => "routine" end;
  patientImpact := match type with emergency => true | _ => false end;
  estimatedDowntime := ""
|}.

(** [s || null] as a field value. *)
Definition str_or_null (s : string) : value :=
  if bool_decide (s = "") then Null else Str s.

(** The object [handleSubmit] passes to [createRequest]. *)
Definition request_payload (profile_id : string) (f : FormData) : document :=
  <["estimatedDowntime" := str_or_null (estimatedDowntime f)]>
    (<["patientImpact" := Bool (patientImpact f)]>
      (<["urgencyLevel" := Str (urgencyLevel f)]>
        (<["priority" := Str (priority f)]>
          (<["description" := Str (description f)]>
            (<["title" := Str (title f)]>
              (<["departmentId" := str_or_null (departmentId f)]>
                (<["requestTypeId" := Str (requestTypeId f)]>
                  (<["userId" := Str profile_id]> ∅)))))))).

(** The form after the user has typed into the text inputs and picked a
    request type and a department, the selects and the checkbox left as
    they are ([setFormData(prev => ({ ...prev, field: value }))]). *)
Definition fill_in (requestTypeId' departmentId' title' description' estimatedDowntime' : string)
    (f : FormData) : FormData := {|
  requestTypeId := requestTypeId';
  departmentId := departmentId';
  title := title';
  description := description';
  priority := priority f;
  urgencyLevel := urgencyLevel f;
  patientImpact := patientImpact f;
  estimatedDowntime := estimatedDowntime'
|}.

(** [handleSubmit]: without a profile it returns at once; [profile] is the
    id of the signed-in profile. *)
Definition handleSubmit (profile : option string) (f : FormData) (autoId : string)
    (db : database) : database :=
  match profile with
  | None => db
  | Some profile_id => (createRequest autoId (request_payload profile_id f) db).2
  end.
End RequestModal.

(** * Properties *)

(** ** Calendar *)
Module CalendarFacts.
Import Calendar.
Local Open Scope Z_scope.

Example epoch : days_from_civil 1970 1 1 = 0.
Proof. reflexivity. Qed.

Example leap_day_2024 : civil_from_days (days_from_civil 2024 2 29) = (2024, 2, 29).
Proof. reflexivity. Qed.

Example after_leap_day_2024 : civil_from_days (days_from_civil 2024 2 29 + 1) = (2024, 3, 1).
Proof. reflexivity. Qed.

Example ninety_days_into_2024 : civil_from_days (days_from_civil 2024 1 1 + 90) = (2024, 3, 31).
Proof. reflexivity. Qed.
End CalendarFacts.

(** ** Three-valued conditions *)
Module SqlFacts.
Import Sql.

Lemma if_true_spec (c : sql_bool) : if_true c = true ↔ c = Some true.
Proof. destruct c as [[]|]; simpl; split; congruence. Qed.

Lemma if_true_sql_eq `{EqDecision A} (a b : option A) :
  if_true (sql_eq a b) = true ↔ ∃ x, a = Some x ∧ b = Some x.
Proof.
  rewrite if_true_spec. destruct a as [x|], b as [y|]; simpl.
  - split.
    + intros [= Hxy%bool_decide_eq_true]. exists x. by subst.
    + intros (z & [= ->] & [= ->]). by rewrite bool_decide_eq_true_2.
  - split; [done | by intros (? & _ & ?)].
  - split; [done | by intros (? & ? & _)].
  - split; [done | by intros (? & ? & _)].
Qed.

Lemma if_true_sql_in `{EqDecision A} (a : option A) (l : list A) :
  if_true (sql_in a l) = true ↔ ∃ x, a = Some x ∧ x ∈ l.
Proof.
  rewrite if_true_spec. destruct a as [x|], l as [|y l]; simpl.
  - split; [done | intros (? & _ & Hin); by apply elem_of_nil in Hin].
  - split.
    + intros [= Hin%bool_decide_eq_true]. by exists x.
    + intros (z & [= ->] & Hin). by rewrite bool_decide_eq_true_2.
  - split; [done | by intros (? & ? & _)].
  - split; [done | by intros (? & ? & _)].
Qed.

Lemma if_true_is_not_null {A} (a : option A) :
  if_true (sql_is_not_null a) = true ↔ is_Some a.
Proof.
  rewrite if_true_spec. unfold sql_is_not_null. split.
  - intros [= H%bool_decide_eq_true]. done.
  - intros H. by rewrite bool_decide_eq_true_2.
Qed.

(** A query whose condition holds of no row yields no row. *)
Lemma filter_no_match {A} (P : A → Prop) `{∀ x, Decision (P x)} (l : list A) :
  (∀ x, x ∈ l → ¬ P x) → filter P l = [].
Proof.
  induction l as [|a l IH]; intros Hno; [done|].
  rewrite filter_cons_False by (apply Hno; left).
  apply IH. intros x Hx. apply Hno. by right.
Qed.
End SqlFacts.

(** ** The maintenance-date trigger *)
Module MaintenanceDate.
Import Sql Policy Samples SqlFacts.
Local Open Scope Z_scope.

(** With [id] a key of [equipment_types], the trigger's query finds exactly
    the row of the device's type. *)
Lemma select_row_of_type (ets : list equipment_types.row) (et : equipment_types.row) :
  NoDup (equipment_types.id <$> ets) →
  et ∈ ets →
  filter (λ e, if_true (sql_eq (Some (equipment_types.id e))
                               (Some (equipment_types.id et))) = true) ets = [et].
Proof.
  induction ets as [|e ets IH]; intros Hnd Hin.
  - by apply elem_of_nil in Hin.
  - rewrite fmap_cons in Hnd. apply NoDup_cons in Hnd as [Hfresh Hnd].
    apply elem_of_cons in Hin as [->|Hin].
    + rewrite filter_cons_True by (apply if_true_sql_eq; eauto).
      f_equal. apply filter_no_match.
      intros e' He' (x & [= Hx] & [= Hy])%if_true_sql_eq.
      apply Hfresh. rewrite Hy, <- Hx. by apply list_elem_of_fmap_2.
    + rewrite filter_cons_False.
      * by apply IH.
      * intros (x & [= Hx] & [= Hy])%if_true_sql_eq.
        apply Hfresh. rewrite Hx, <- Hy. by apply list_elem_of_fmap_2.
Qed.

(** What the trigger's query gives for a device of a type with interval
    [n]: the sum, or the engine's range error. *)
Lemma select_of_typed_device today ets NEW et n :
  NoDup (equipment_types.id <$> ets) →
  et ∈ ets →
  devices.equipment_type_id NEW = Some (equipment_types.id et) →
  equipment_types.maintenance_interval_days et = Some n →
  select_next_maintenance_date today ets NEW =
    if bool_decide (in_timestamp_range (base_date today NEW)
                    ∧ in_timestamp_range (base_date today NEW + n))
    then Returned (Some (base_date today NEW + n))
    else Raised datetime_field_overflow.
Proof.
  intros Hnd Hin Hty Hn. unfold select_next_maintenance_date.
  rewrite Hty, (select_row_of_type ets et Hnd Hin), Hn. reflexivity.
Qed.

Lemma typed_device_recomputed today ets NEW et n :
  NoDup (equipment_types.id <$> ets) →
  et ∈ ets →
  devices.equipment_type_id NEW = Some (equipment_types.id et) →
  equipment_types.maintenance_interval_days et = Some n →
  in_timestamp_range (base_date today NEW) →
  in_timestamp_range (base_date today NEW + n) →
  update_next_maintenance_date today ets NEW =
    Returned (devices.set_next_maintenance_date (Some (base_date today NEW + n)) NEW).
Proof.
  intros Hnd Hin Hty Hn Hbase Hsum. unfold update_next_maintenance_date.
  rewrite (select_of_typed_device today ets NEW et n Hnd Hin Hty Hn).
  rewrite Hty. simpl. by rewrite bool_decide_eq_true_2.
Qed.

Lemma typed_device_out_of_range today ets NEW et n :
  NoDup (equipment_types.id <$> ets) →
  et ∈ ets →
  devices.equipment_type_id NEW = Some (equipment_types.id et) →
  equipment_types.maintenance_interval_days et = Some n →
  ¬ (in_timestamp_range (base_date today NEW)
     ∧ in_timestamp_range (base_date today NEW + n)) →
  update_next_maintenance_date today ets NEW = Raised datetime_field_overflow.
Proof.
  intros Hnd Hin Hty Hn Hout. unfold update_next_maintenance_date.
  rewrite (select_of_typed_device today ets NEW et n Hnd Hin Hty Hn).
  rewrite Hty. simpl. by rewrite bool_decide_eq_false_2.
Qed.

(** A key that matches no row of [equipment_types] clears the date: the
    query finds no row and its target becomes NULL. *)
Lemma typed_device_unknown_type today ets NEW tid :
  devices.equipment_type_id NEW = Some tid →
  tid ∉ equipment_types.id <$> ets →
  update_next_maintenance_date today ets NEW =
    Returned (devices.set_next_maintenance_date None NEW).
Proof.
  intros Hty Hno. unfold update_next_maintenance_date.
  rewrite Hty. simpl. unfold select_next_maintenance_date.
  rewrite Hty, filter_no_match; [done|].
  intros e He (x & [= Hx] & [= Hy])%if_true_sql_eq.
  apply Hno. rewrite Hy, <- Hx. by apply list_elem_of_fmap_2.
Qed.

(** A type row whose interval is NULL clears the date: the sum is NULL. *)
Lemma typed_device_null_interval today ets NEW et :
  NoDup (equipment_types.id <$> ets) →
  et ∈ ets →
  devices.equipment_type_id NEW = Some (equipment_types.id et) →
  equipment_types.maintenance_interval_days et = None →
  update_next_maintenance_date today ets NEW =
    Returned (devices.set_next_maintenance_date None NEW).
Proof.
  intros Hnd Hin Hty Hn. unfold update_next_maintenance_date.
  rewrite Hty. simpl. unfold select_next_maintenance_date.
  rewrite Hty, (select_row_of_type ets et Hnd Hin), Hn. reflexivity.
Qed.

(** C2 (amended): for every device write whose equipment_type_id is the key
    of an equipment type with interval n, and whose base date (the
    last_maintenance_date if present, otherwise the current date) and base
    date + n both lie in the engine's timestamp range, the trigger returns
    the row with next_maintenance_date = base date + n days; outside that
    range the write fails with the engine's range error. In particular a
    never-maintained device of a 90-day type written on 2024-01-01 gets
    2024-03-31. *)
Theorem next_maintenance_date_rule :
  (∀ today ets NEW et n,
     NoDup (equipment_types.id <$> ets) →
     et ∈ ets →
     devices.equipment_type_id NEW = Some (equipment_types.id et) →
     equipment_types.maintenance_interval_days et = Some n →
     (in_timestamp_range (default today (devices.last_maintenance_date NEW))
      ∧ in_timestamp_range (default today (devices.last_maintenance_date NEW) + n) →
      update_next_maintenance_date today ets NEW =
        Returned (devices.set_next_maintenance_date
                    (Some (default today (devices.last_maintenance_date NEW) + n)) NEW))
     ∧ (¬ (in_timestamp_range (default today (devices.last_maintenance_date NEW))
           ∧ in_timestamp_range (default today (devices.last_maintenance_date NEW) + n)) →
        update_next_maintenance_date today ets NEW = Raised datetime_field_overflow))
  ∧ devices.last_maintenance_date new_ultrasound = None
  ∧ update_next_maintenance_date jan_1_2024 equipment_types_table new_ultrasound =
      Returned (devices.set_next_maintenance_date (Some mar_31_2024) new_ultrasound)
  ∧ Calendar.civil_from_days (jan_1_2024 + 90) = (2024, 3, 31).
Proof.
  split; [|split; [|split]].
  - intros today ets NEW et n Hnd Hin Hty Hn. split.
    + intros [Hbase Hsum].
      exact (typed_device_recomputed today ets NEW et n Hnd Hin Hty Hn Hbase Hsum).
    + intros Hout.
      exact (typed_device_out_of_range today ets NEW et n Hnd Hin Hty Hn Hout).
  - reflexivity.
  - reflexivity.
  - reflexivity.
Qed.

(** The rule at a device last maintained on 2024-01-01, of a 30-day type,
    written on 2024-06-01: the next date is 2024-01-31. *)
Lemma next_maintenance_date_rule_witness :
  update_next_maintenance_date jun_1_2024 equipment_types_table maintained_mri =
    Returned (devices.set_next_maintenance_date (Some jan_31_2024) maintained_mri).
Proof.
  destruct (proj1 next_maintenance_date_rule jun_1_2024 equipment_types_table
              maintained_mri mri_machine 30) as [Hrule _].
  - compute_done.
  - unfold equipment_types_table. apply list_elem_of_here.
  - reflexivity.
  - reflexivity.
  - rewrite Hrule; [reflexivity|]. split; compute_done.
Defined.

(** C2 as stated fails: a device written with no equipment type and no
    dates comes back unchanged, its next_maintenance_date still NULL, which
    is not a base date plus any number of days. *)
Lemma bare_device_not_recomputed :
  update_next_maintenance_date jan_1_2024 equipment_types_table bare_device =
    Returned bare_device
  ∧ devices.next_maintenance_date bare_device = None
  ∧ ¬ ∃ n, devices.next_maintenance_date bare_device =
            Some (default jan_1_2024 (devices.last_maintenance_date bare_device) + n).
Proof.
  split; [reflexivity|]. split; [reflexivity|].
  intros [n Hn]. discriminate Hn.
Qed.

(** C8: on a device write with equipment_type_id NULL the trigger returns
    the row as written; next_maintenance_date keeps the supplied value. *)
Theorem device_without_type_unchanged today ets NEW :
  devices.equipment_type_id NEW = None →
  ∃ OUT, update_next_maintenance_date today ets NEW = Returned OUT
         ∧ devices.next_maintenance_date OUT = devices.next_maintenance_date NEW
         ∧ OUT = NEW.
Proof.
  intros Hty. exists NEW. unfold update_next_maintenance_date.
  rewrite Hty. simpl. done.
Qed.

(** A device with no type written with next date 2024-06-01, and one
    written with no next date: both come back as written. *)
Lemma device_without_type_unchanged_witness :
  (∃ OUT, update_next_maintenance_date jan_1_2024 equipment_types_table untyped_device =
            Returned OUT
          ∧ devices.next_maintenance_date OUT = Some jun_1_2024)
  ∧ (∃ OUT, update_next_maintenance_date jan_1_2024 equipment_types_table bare_device =
              Returned OUT
            ∧ devices.next_maintenance_date OUT = None).
Proof.
  split.
  - destruct (device_without_type_unchanged jan_1_2024 equipment_types_table
                untyped_device eq_refl) as (OUT & Hrun & Hnext & _).
    exists OUT. split; [exact Hrun | exact Hnext].
  - destruct (device_without_type_unchanged jan_1_2024 equipment_types_table
                bare_device eq_refl) as (OUT & Hrun & Hnext & _).
    exists OUT. split; [exact Hrun | exact Hnext].
Defined.

(** C4 as stated fails: with an interval of 0 days the trigger raises
    nothing and returns the base date itself. *)
Lemma zero_interval_returns_base_date :
  equipment_types.maintenance_interval_days zero_interval = Some 0
  ∧ devices.equipment_type_id zero_interval_device = Some (equipment_types.id zero_interval)
  ∧ update_next_maintenance_date jan_1_2024 equipment_types_table zero_interval_device =
      Returned (devices.set_next_maintenance_date (Some jan_1_2024) zero_interval_device)
  ∧ update_next_maintenance_date jan_1_2024 equipment_types_table zero_interval_device ≠
      Raised InvalidConfiguration.
Proof.
  split; [reflexivity|]. split; [reflexivity|]. split; [reflexivity|].
  discriminate.
Qed.

End MaintenanceDate.

(** ** The request-escalation trigger *)
Module Escalation.
Import Sql Policy Samples SqlFacts.

(** The first [IF] is taken exactly for the two escalating urgency levels. *)
Lemma urgency_test_spec (u : option string) :
  if_true (sql_or (sql_eq u (Some "emergency")) (sql_eq u (Some "critical"))) = true
  ↔ urgency_escalates u.
Proof.
  unfold urgency_escalates. destruct u as [s|]; simpl.
  - destruct (decide (s = "emergency")) as [->|He];
      [|destruct (decide (s = "critical")) as [->|Hc]].
    + split; [by left | done].
    + split; [by right | done].
    + rewrite !bool_decide_eq_false_2 by done. simpl.
      split; [done | intros [[= ?]|[= ?]]; done].
  - split; [done | intros [?|?]; done].
Qed.

(** The subquery lists exactly the keys of the departments flagged critical. *)
Lemma critical_department_ids_spec (depts : list departments.row) (x : uuid) :
  x ∈ critical_department_ids depts
  ↔ ∃ d, d ∈ depts ∧ x = departments.id d ∧ departments.is_critical d = Some true.
Proof.
  unfold critical_department_ids. rewrite list_elem_of_fmap. split.
  - intros (d & -> & [Hc Hd]%list_elem_of_filter).
    exists d. repeat split; [done|].
    apply if_true_sql_eq in Hc as (b & Hb & [= <-]). done.
  - intros (d & Hd & -> & Hc). exists d. split; [done|].
    apply list_elem_of_filter. split; [|done].
    apply if_true_sql_eq. eauto.
Qed.

(** The second [IF] is taken exactly when the department is critical. *)
Lemma department_test_spec (depts : list departments.row) (dep : option uuid) :
  if_true (sql_in dep (critical_department_ids depts)) = true
  ↔ department_is_critical depts dep.
Proof.
  rewrite if_true_sql_in. unfold department_is_critical. split.
  - intros (x & -> & (d & Hd & -> & Hc)%critical_department_ids_spec). eauto.
  - intros (d & Hd & -> & Hc). exists (departments.id d). split; [done|].
    apply critical_department_ids_spec. eauto.
Qed.

Lemma escalate_priority_taken NEW :
  urgency_escalates (requests.urgency_level NEW) →
  escalate_priority NEW = requests.set_priority (Some "urgent") NEW.
Proof.
  intros Hu%urgency_test_spec. unfold escalate_priority. by rewrite Hu.
Qed.

Lemma escalate_priority_skipped NEW :
  ¬ urgency_escalates (requests.urgency_level NEW) →
  escalate_priority NEW = NEW.
Proof.
  intros Hu. unfold escalate_priority.
  destruct (if_true _) eqn:Ht; [|done].
  by apply urgency_test_spec in Ht.
Qed.

Lemma flag_patient_impact_taken depts NEW :
  department_is_critical depts (requests.department_id NEW) →
  flag_patient_impact depts NEW = requests.set_patient_impact (Some true) NEW.
Proof.
  intros Hd%department_test_spec. unfold flag_patient_impact. by rewrite Hd.
Qed.

Lemma flag_patient_impact_skipped depts NEW :
  ¬ department_is_critical depts (requests.department_id NEW) →
  flag_patient_impact depts NEW = NEW.
Proof.
  intros Hd. unfold flag_patient_impact.
  destruct (if_true _) eqn:Ht; [|done].
  by apply department_test_spec in Ht.
Qed.

(** Each rule writes one column and reads columns the other never writes. *)
Lemma escalate_priority_frame NEW :
  let OUT := escalate_priority NEW in
  requests.id OUT = requests.id NEW
  ∧ requests.title OUT = requests.title NEW
  ∧ requests.department_id OUT = requests.department_id NEW
  ∧ requests.urgency_level OUT = requests.urgency_level NEW
  ∧ requests.patient_impact OUT = requests.patient_impact NEW
  ∧ requests.status OUT = requests.status NEW.
Proof. unfold escalate_priority. by destruct (if_true _). Qed.

Lemma flag_patient_impact_frame depts NEW :
  let OUT := flag_patient_impact depts NEW in
  requests.id OUT = requests.id NEW
  ∧ requests.title OUT = requests.title NEW
  ∧ requests.department_id OUT = requests.department_id NEW
  ∧ requests.urgency_level OUT = requests.urgency_level NEW
  ∧ requests.priority OUT = requests.priority NEW
  ∧ requests.status OUT = requests.status NEW.
Proof. unfold flag_patient_impact. by destruct (if_true _). Qed.
Lemma check_request_escalation_returns depts NEW :
  check_request_escalation depts NEW =
    Returned (flag_patient_impact depts (escalate_priority NEW)).
Proof. reflexivity. Qed.

Lemma priority_rank_top (p : option string) (r : nat) :
  priority_rank p = Some r → r ≤ 3.
Proof.
  destruct p as [s|]; [|done]. unfold priority_rank.
  repeat case_bool_decide; intros [= <-]; lia.
Qed.

(** C3: the trigger returns priority = urgent whenever urgency_level is
    emergency or critical, patient_impact = true whenever the request's
    department is critical, and otherwise leaves the two columns at their
    input values; a routine request of a critical department with priority
    high and patient_impact false comes back as (high, true). *)
Theorem check_request_escalation_rules :
  (∀ depts NEW, ∃ OUT,
     check_request_escalation depts NEW = Returned OUT
     ∧ (urgency_escalates (requests.urgency_level NEW) →
        requests.priority OUT = Some "urgent")
     ∧ (department_is_critical depts (requests.department_id NEW) →
        requests.patient_impact OUT = Some true)
     ∧ (¬ urgency_escalates (requests.urgency_level NEW) →
        requests.priority OUT = requests.priority NEW)
     ∧ (¬ department_is_critical depts (requests.department_id NEW) →
        requests.patient_impact OUT = requests.patient_impact NEW))
  ∧ (requests.urgency_level routine_high_request = Some "routine"
     ∧ department_is_critical departments_table (requests.department_id routine_high_request)
     ∧ requests.priority routine_high_request = Some "high"
     ∧ requests.patient_impact routine_high_request = Some false
     ∧ ∃ OUT, check_request_escalation departments_table routine_high_request = Returned OUT
              ∧ requests.priority OUT = Some "high"
              ∧ requests.patient_impact OUT = Some true).
Proof.
  split.
  - intros depts NEW. eexists. split; [apply check_request_escalation_returns|].
    destruct (flag_patient_impact_frame depts (escalate_priority NEW))
      as (_ & _ & _ & _ & Hprio & _).
    destruct (escalate_priority_frame NEW) as (_ & _ & Hdep & _ & Himpact & _).
    repeat split.
    + intros Hu. rewrite Hprio, (escalate_priority_taken NEW Hu). done.
    + intros Hd. rewrite flag_patient_impact_taken; [done|]. by rewrite Hdep.
    + intros Hu. rewrite Hprio, (escalate_priority_skipped NEW Hu). done.
    + intros Hd. rewrite flag_patient_impact_skipped; [done|]. by rewrite Hdep.
  - repeat split.
    + exists emergency_department. repeat split.
      unfold departments_table. apply list_elem_of_here.
    + eexists. split; [reflexivity|]. split; reflexivity.
Qed.

(** The rules at an emergency request of a non-critical department with
    priority low and patient_impact false: the result is (urgent, false). *)
Lemma check_request_escalation_rules_witness :
  ∃ OUT, check_request_escalation departments_table emergency_low_request = Returned OUT
         ∧ requests.priority OUT = Some "urgent"
         ∧ requests.patient_impact OUT = Some false.
Proof.
  destruct (proj1 check_request_escalation_rules departments_table emergency_low_request)
    as (OUT & Hrun & Hup & _ & _ & Hkeep).
  exists OUT. split; [exact Hrun|]. split.
  - apply Hup. left. reflexivity.
  - rewrite Hkeep; [reflexivity|].
    intros (d & Hd & Hid & Hc). unfold departments_table in Hd.
    repeat (apply elem_of_cons in Hd as [->|Hd]); try discriminate.
    by apply elem_of_nil in Hd.
Defined.

(** C5: escalation is monotone. The returned priority is the input
    priority or urgent, so it is never below the input priority on the
    scale low < medium < high < urgent, and a patient_impact that was true
    stays true. *)
Theorem escalation_monotone depts NEW :
  ∃ OUT,
    check_request_escalation depts NEW = Returned OUT
    ∧ (requests.priority OUT = requests.priority NEW
       ∨ requests.priority OUT = Some "urgent")
    ∧ (∀ r, priority_rank (requests.priority NEW) = Some r →
            ∃ r', priority_rank (requests.priority OUT) = Some r' ∧ r ≤ r')
    ∧ (requests.patient_impact NEW = Some true →
       requests.patient_impact OUT = Some true).
Proof.
  eexists. split; [apply check_request_escalation_returns|].
  destruct (flag_patient_impact_frame depts (escalate_priority NEW))
    as (_ & _ & _ & _ & Hprio & _).
  destruct (escalate_priority_frame NEW) as (_ & _ & _ & _ & Himpact & _).
  split; [|split].
  - rewrite Hprio. unfold escalate_priority.
    destruct (if_true _); [by right | by left].
  - intros r Hr. rewrite Hprio. unfold escalate_priority.
    destruct (if_true _).
    + exists 3. split; [reflexivity | by eapply priority_rank_top].
    + exists r. split; [exact Hr | lia].
  - intros Htrue. unfold flag_patient_impact.
    destruct (if_true _); [reflexivity|]. by rewrite Himpact.
Qed.

(** Monotonicity at a request that is already urgent and patient-impacting,
    of a non-critical department and routine urgency: nothing is lowered. *)
Lemma escalation_monotone_witness :
  ∃ OUT,
    check_request_escalation departments_table
      (requests.mk "req-3" "Server room" (Some "dep-it") (Some "urgent")
                   (Some "routine") (Some true) "pending") = Returned OUT
    ∧ (∃ r', priority_rank (requests.priority OUT) = Some r' ∧ 3 ≤ r')
    ∧ requests.patient_impact OUT = Some true.
Proof.
  destruct (escalation_monotone departments_table
              (requests.mk "req-3" "Server room" (Some "dep-it") (Some "urgent")
                           (Some "routine") (Some true) "pending"))
    as (OUT & Hrun & _ & Hrank & Hflag).
  exists OUT. split; [exact Hrun|]. split.
  - apply Hrank. reflexivity.
  - apply Hflag. reflexivity.
Defined.

(** C6: the two rules commute. The trigger applies the priority rule and
    then the patient-impact rule; the other order gives the same row,
    because the priority rule leaves patient_impact and department_id alone
    and the patient-impact rule leaves priority and urgency_level alone. *)
Theorem escalation_rules_commute depts NEW :
  flag_patient_impact depts (escalate_priority NEW) =
    escalate_priority (flag_patient_impact depts NEW)
  ∧ check_request_escalation depts NEW =
      Returned (escalate_priority (flag_patient_impact depts NEW))
  ∧ requests.patient_impact (escalate_priority NEW) = requests.patient_impact NEW
  ∧ requests.department_id (escalate_priority NEW) = requests.department_id NEW
  ∧ requests.priority (flag_patient_impact depts NEW) = requests.priority NEW
  ∧ requests.urgency_level (flag_patient_impact depts NEW) = requests.urgency_level NEW.
Proof.
  assert (flag_patient_impact depts (escalate_priority NEW) =
            escalate_priority (flag_patient_impact depts NEW)) as Hcomm.
  { unfold flag_patient_impact, escalate_priority.
    destruct (if_true (sql_or _ _)) eqn:Hu; simpl;
      destruct (if_true (sql_in _ _)) eqn:Hd; simpl; rewrite ?Hu; reflexivity. }
  split; [exact Hcomm|]. split.
  - rewrite check_request_escalation_returns. by rewrite Hcomm.
  - destruct (flag_patient_impact_frame depts NEW) as (_ & _ & _ & Hurg & Hprio & _).
    destruct (escalate_priority_frame NEW) as (_ & _ & Hdep & _ & Himpact & _).
    done.
Qed.
End Escalation.

(** ** The compliance status *)
Module ComplianceStatus.
Import Compliance Examples.
Local Open Scope Z_scope.

Lemma falsy_spec (e : option string) : falsy e = true ↔ absent e.
Proof.
  unfold absent. destruct e as [s|]; simpl.
  - rewrite bool_decide_eq_true. split.
    + intros ->. by right.
    + intros [?|[= ->]]; done.
  - split; [by left | done].
Qed.

Lemma isBefore_spec (a b : Date) : isBefore a b = true ↔ before a b.
Proof.
  destruct a as [x|], b as [y|]; simpl; try (split; done).
  apply bool_decide_eq_true.
Qed.

Lemma isBefore_false (a b : Date) : isBefore a b = false ↔ ¬ before a b.
Proof.
  rewrite <- isBefore_spec. destruct (isBefore a b); split; done.
Qed.

(** C1: the four-way case analysis. With [now] the evaluation instant and
    [expiry] the date the field denotes: an absent expiry date gives valid;
    otherwise expiry before now gives expired; otherwise expiry before
    now + 30 days gives pending_renewal; otherwise valid. *)
Theorem getComplianceStatus_cases `{Host} (w : World) (expiryDate : option string) :
  (absent expiryDate → getComplianceStatus w expiryDate = "valid")
  ∧ (¬ absent expiryDate →
     before (new_Date (default "" expiryDate)) (Some (clock w)) →
     getComplianceStatus w expiryDate = "expired")
  ∧ (¬ absent expiryDate →
     ¬ before (new_Date (default "" expiryDate)) (Some (clock w)) →
     before (new_Date (default "" expiryDate)) (addDays (Some (clock w)) 30) →
     getComplianceStatus w expiryDate = "pending_renewal")
  ∧ (¬ absent expiryDate →
     ¬ before (new_Date (default "" expiryDate)) (Some (clock w)) →
     ¬ before (new_Date (default "" expiryDate)) (addDays (Some (clock w)) 30) →
     getComplianceStatus w expiryDate = "valid").
Proof.
  unfold getComplianceStatus. split; [|split; [|split]].
  - intros Ha%falsy_spec. by rewrite Ha.
  - intros Ha Hb%isBefore_spec.
    destruct (falsy expiryDate) eqn:Hf; [by apply falsy_spec in Hf|].
    by rewrite Hb.
  - intros Ha Hb%isBefore_false Hc%isBefore_spec.
    destruct (falsy expiryDate) eqn:Hf; [by apply falsy_spec in Hf|].
    by rewrite Hb, Hc.
  - intros Ha Hb%isBefore_false Hc%isBefore_false.
    destruct (falsy expiryDate) eqn:Hf; [by apply falsy_spec in Hf|].
    by rewrite Hb, Hc.
Qed.

(** The three cases of a non-empty field, with the tests spelled out. *)
Lemma getComplianceStatus_cases_aux `{Host} (w : World) (s : string) :
  s ≠ "" →
  (before (new_Date s) (Some (clock w)) →
   getComplianceStatus w (Some s) = "expired")
  ∧ (¬ before (new_Date s) (Some (clock w)) →
     before (new_Date s) (addDays (Some (clock w)) 30) →
     getComplianceStatus w (Some s) = "pending_renewal")
  ∧ (¬ before (new_Date s) (Some (clock w)) →
     ¬ before (new_Date s) (addDays (Some (clock w)) 30) →
     getComplianceStatus w (Some s) = "valid").
Proof.
  intros Hs. unfold getComplianceStatus. simpl.
  rewrite bool_decide_eq_false_2 by done.
  split; [|split].
  - intros Hb%isBefore_spec. by rewrite Hb.
  - intros Hb%isBefore_false Hc%isBefore_spec. by rewrite Hb, Hc.
  - intros Hb%isBefore_false Hc%isBefore_false. by rewrite Hb, Hc.
Qed.

(** The four cases at noon UTC on 2024-01-01: no date; a date in 2023; a
    date two weeks ahead; a date a year ahead. *)
Lemma getComplianceStatus_cases_witness :
  @getComplianceStatus utc_host fresh_screen None = "valid"
  ∧ @getComplianceStatus utc_host fresh_screen (Some "2023-12-31") = "expired"
  ∧ @getComplianceStatus utc_host fresh_screen (Some "2024-01-15") = "pending_renewal"
  ∧ @getComplianceStatus utc_host fresh_screen (Some "2025-01-01") = "valid".
Proof.
  split; [|split; [|split]].
  - apply (proj1 (@getComplianceStatus_cases utc_host fresh_screen None)).
    by left.
  - apply (proj1 (proj2 (@getComplianceStatus_cases utc_host fresh_screen
                           (Some "2023-12-31")))).
    + intros [?|?]; discriminate.
    + vm_compute. reflexivity.
  - apply (proj1 (proj2 (proj2 (@getComplianceStatus_cases utc_host fresh_screen
                                  (Some "2024-01-15"))))).
    + intros [?|?]; discriminate.
    + vm_compute. discriminate.
    + vm_compute. reflexivity.
  - apply (proj2 (proj2 (proj2 (@getComplianceStatus_cases utc_host fresh_screen
                                  (Some "2025-01-01"))))).
    + intros [?|?]; discriminate.
    + vm_compute. discriminate.
    + vm_compute. discriminate.
Defined.

(** On a host in UTC the window is 30 * 86400000 ms wide. *)
Lemma getComplianceStatus_utc_window (w : World) (s : string) (t : Z) :
  s ≠ "" →
  parse_iso_date s = Some t →
  (t < clock w → @getComplianceStatus utc_host w (Some s) = "expired")
  ∧ (clock w ≤ t < clock w + 30 * ms_per_day →
     @getComplianceStatus utc_host w (Some s) = "pending_renewal")
  ∧ (clock w + 30 * ms_per_day ≤ t →
     @getComplianceStatus utc_host w (Some s) = "valid").
Proof.
  intros Hs Ht.
  assert (¬ absent (Some s)) as Ha by (intros [?|[= ?]]; done).
  destruct (@getComplianceStatus_cases_aux utc_host w s Hs) as (He & Hp & Hv).
  simpl in He, Hp, Hv. rewrite Ht in He, Hp, Hv. simpl in He, Hp, Hv.
  split; [|split].
  - intros Hlt. by apply He.
  - intros [Hge Hlt]. apply Hp; lia.
  - intros Hge. apply Hv; unfold ms_per_day in *; lia.
Qed.

(** C7: the status is a function of the expiry date and of the evaluation
    instant alone: two screens in any two states, read at the same instant,
    give the same status for the same expiry date. *)
Theorem getComplianceStatus_pure `{Host} (w1 w2 : World) (expiryDate : option string) :
  clock w1 = clock w2 →
  getComplianceStatus w1 expiryDate = getComplianceStatus w2 expiryDate.
Proof.
  intros Hclock. unfold getComplianceStatus. by rewrite Hclock.
Qed.

(** The freshly loaded screen and the screen in the middle of an edit, a
    stale record in its list, agree at noon on 2024-01-01. *)
Lemma getComplianceStatus_pure_witness :
  state fresh_screen ≠ state editing_screen
  ∧ @getComplianceStatus utc_host fresh_screen (Some "2024-01-15") =
      @getComplianceStatus utc_host editing_screen (Some "2024-01-15").
Proof.
  split; [discriminate|].
  apply (@getComplianceStatus_pure utc_host fresh_screen editing_screen
           (Some "2024-01-15")).
  reflexivity.
Defined.

(** The status [handleSubmit] writes is recomputed from the form's expiry
    date and the clock; the status of the record being edited plays no
    part. *)
Lemma recordData_status `{Host} (w1 w2 : World) :
  clock w1 = clock w2 →
  form_expiry_date (formData (state w1)) = form_expiry_date (formData (state w2)) →
  data_status (recordData w1) = data_status (recordData w2).
Proof.
  intros Hclock Hexp. unfold recordData. simpl. rewrite Hexp.
  by apply getComplianceStatus_pure.
Qed.

Example recordData_recomputes_status :
  status stale_record = "valid"
  ∧ data_status (@recordData utc_host editing_screen) = "pending_renewal".
Proof. split; reflexivity. Qed.
End ComplianceStatus.

(** ** The document-store write path *)
Module DocumentStore.
Import Firestore Examples.

Lemma request_document_other (requestData : gmap string value) (k : string) :
  k ∉ written_keys →
  request_document requestData !! k = requestData !! k.
Proof.
  intros Hk. unfold request_document, written_keys in *.
  rewrite !lookup_insert_ne; [done| | |]; intros <-; apply Hk; compute_done.
Qed.

Lemma request_document_status (requestData : gmap string value) :
  request_document requestData !! "status" = Some (Str "pending").
Proof.
  unfold request_document.
  rewrite !lookup_insert_ne by done. apply lookup_insert_eq.
Qed.

Lemma request_document_dom (requestData : gmap string value) :
  dom (request_document requestData) = dom requestData ∪ list_to_set written_keys.
Proof.
  unfold request_document, written_keys. rewrite !dom_insert_L. simpl.
  apply set_eq. intros k.
  rewrite !elem_of_union, !elem_of_singleton, elem_of_empty. tauto.
Qed.

(** [createRequest] returns the reference of a document that reads back as
    the object it built. *)
Lemma createRequest_stored (autoId : string) (requestData : gmap string value)
    (db : gmap string (gmap string (gmap string value))) :
  (createRequest autoId requestData db).1 = autoId
  ∧ getDoc (createRequest autoId requestData db).2 "requests" autoId =
      Some (request_document requestData).
Proof.
  split; [reflexivity|]. unfold getDoc, createRequest, addDoc. simpl.
  rewrite lookup_insert_eq. simpl. apply lookup_insert_eq.
Qed.

(** Documents of other collections, and other documents of [requests], are
    left as they were. *)
Lemma createRequest_frame (autoId : string) (requestData : gmap string value)
    (db : gmap string (gmap string (gmap string value))) (name docId : string) :
  (name, docId) ≠ ("requests", autoId) →
  getDoc (createRequest autoId requestData db).2 name docId = getDoc db name docId.
Proof.
  intros Hne. unfold getDoc, createRequest, addDoc. simpl.
  destruct (decide (name = "requests")) as [->|Hname].
  - rewrite lookup_insert_eq. simpl.
    rewrite lookup_insert_ne by congruence.
    by destruct (db !! "requests").
  - by rewrite lookup_insert_ne.
Qed.

(** C9: the stored request carries the payload's priority, urgencyLevel and
    patientImpact as supplied; every property other than status, createdAt
    and updatedAt is the payload's, and these three are the only names
    added. *)
Theorem createRequest_applies_no_escalation (autoId : string)
    (requestData : gmap string value)
    (db : gmap string (gmap string (gmap string value))) :
  ∃ doc,
    getDoc (createRequest autoId requestData db).2 "requests"
           (createRequest autoId requestData db).1 = Some doc
    ∧ doc !! "priority" = requestData !! "priority"
    ∧ doc !! "urgencyLevel" = requestData !! "urgencyLevel"
    ∧ doc !! "patientImpact" = requestData !! "patientImpact"
    ∧ (∀ k, k ∉ written_keys → doc !! k = requestData !! k)
    ∧ dom doc = dom requestData ∪ list_to_set written_keys
    ∧ doc !! "createdAt" = Some ServerTimestamp
    ∧ doc !! "updatedAt" = Some ServerTimestamp.
Proof.
  exists (request_document requestData).
  destruct (createRequest_stored autoId requestData db) as [-> Hget].
  split; [exact Hget|].
  split; [apply request_document_other; compute_done|].
  split; [apply request_document_other; compute_done|].
  split; [apply request_document_other; compute_done|].
  split; [intros k Hk; by apply request_document_other|].
  split; [apply request_document_dom|].
  unfold request_document. split.
  - rewrite lookup_insert_ne by done. apply lookup_insert_eq.
  - apply lookup_insert_eq.
Qed.

(** An emergency request of a critical department entered with priority low
    and no patient impact is stored with priority low and no patient
    impact. *)
Lemma createRequest_applies_no_escalation_witness :
  ∃ doc,
    getDoc (createRequest "r-1" emergency_payload ∅).2 "requests" "r-1" = Some doc
    ∧ doc !! "urgencyLevel" = Some (Str "emergency")
    ∧ doc !! "departmentId" = Some (Str "dep-ed")
    ∧ doc !! "priority" = Some (Str "low")
    ∧ doc !! "patientImpact" = Some (Bool false).
Proof.
  destruct (createRequest_applies_no_escalation "r-1" emergency_payload ∅)
    as (doc & Hget & Hprio & Hurg & Himpact & Hrest & _).
  exists doc. split; [exact Hget|].
  split; [by rewrite Hurg|].
  split; [rewrite Hrest; [done | compute_done]|].
  split; [by rewrite Hprio | by rewrite Himpact].
Defined.

(** C10: the stored request has status 'pending', whatever status the
    payload carries. *)
Theorem createRequest_status_pending (autoId : string)
    (requestData : gmap string value)
    (db : gmap string (gmap string (gmap string value))) :
  ∃ doc,
    getDoc (createRequest autoId requestData db).2 "requests"
           (createRequest autoId requestData db).1 = Some doc
    ∧ doc !! "status" = Some (Str "pending").
Proof.
  exists (request_document requestData).
  destruct (createRequest_stored autoId requestData db) as [-> Hget].
  split; [exact Hget | apply request_document_status].
Qed.

(** A payload sent with status 'in_progress' is stored as 'pending'. *)
Lemma createRequest_status_pending_witness :
  payload_with_status !! "status" = Some (Str "in_progress")
  ∧ ∃ doc,
      getDoc (createRequest "r-2" payload_with_status ∅).2 "requests" "r-2" = Some doc
      ∧ doc !! "status" = Some (Str "pending").
Proof.
  split; [reflexivity|].
  destruct (createRequest_status_pending "r-2" payload_with_status ∅)
    as (doc & Hget & Hstatus).
  exists doc. split; [exact Hget | exact Hstatus].
Defined.
End DocumentStore.

(** ** Errors *)
Module ErrorHandling.
Import Sql Policy Samples SqlFacts.
Local Open Scope Z_scope.

(** The only way the maintenance trigger raises: the device has a type
    with an interval, and the base date or the sum is out of the
    timestamp range. *)
Lemma update_next_maintenance_date_raised today ets NEW e :
  update_next_maintenance_date today ets NEW = Raised e →
  e = datetime_field_overflow
  ∧ ∃ et n,
      et ∈ ets
      ∧ devices.equipment_type_id NEW = Some (equipment_types.id et)
      ∧ equipment_types.maintenance_interval_days et = Some n
      ∧ ¬ (in_timestamp_range (base_date today NEW)
           ∧ in_timestamp_range (base_date today NEW + n)).
Proof.
  unfold update_next_maintenance_date.
  destruct (if_true (sql_is_not_null _)); [|done].
  unfold select_next_maintenance_date.
  destruct (filter _ ets) as [|et l] eqn:Hfilter; [done|].
  assert (et ∈ filter (λ et, if_true (sql_eq (Some (equipment_types.id et))
                                              (devices.equipment_type_id NEW)) = true) ets)
    as [Hmatch Hin]%list_elem_of_filter by (rewrite Hfilter; left).
  apply if_true_sql_eq in Hmatch as (x & [= <-] & Hty).
  unfold date_plus_interval, coalesce, interval_days.
  destruct (equipment_types.maintenance_interval_days et) as [n|] eqn:Hn; [|done].
  case_bool_decide as Hrange; [done|]. intros [= <-].
  split; [done|]. exists et, n. done.
Qed.

(** An interval of 2147483647 days, the largest the integer column holds:
    the sum is far beyond the timestamp range and the write fails. *)
Example largest_interval_raises :
  update_next_maintenance_date jan_1_2024
    [equipment_types.mk "et-max" "Archive" (Some false) (Some false) (Some 2147483647)]
    (devices.mk "dev-8" "Tape vault" (Some "et-max") None (Some false) None None
                (Some "compliant"))
  = Raised datetime_field_overflow.
Proof. reflexivity. Qed.

(** C4 (amended): the maintenance trigger never fails with
    InvalidConfiguration. It does not validate the interval: for an
    interval n <= 0 of the device's type (dates within the engine's
    timestamp range) it returns the row with base date + n, a date not
    after the base date. The only error it raises is the engine's range
    error of date arithmetic, and only when the base date or base date + n
    is out of the timestamp range. The escalation trigger returns a row for
    every input, and the compliance status is always one of the three
    status texts. *)
Theorem policy_functions_errors :
  (∀ today ets NEW,
     update_next_maintenance_date today ets NEW ≠ Raised InvalidConfiguration)
  ∧ (∀ today ets NEW et n,
       NoDup (equipment_types.id <$> ets) →
       et ∈ ets →
       devices.equipment_type_id NEW = Some (equipment_types.id et) →
       equipment_types.maintenance_interval_days et = Some n →
       n ≤ 0 →
       in_timestamp_range (base_date today NEW) →
       in_timestamp_range (base_date today NEW + n) →
       update_next_maintenance_date today ets NEW =
         Returned (devices.set_next_maintenance_date (Some (base_date today NEW + n)) NEW)
       ∧ base_date today NEW + n ≤ base_date today NEW)
  ∧ (∀ today ets NEW e,
       update_next_maintenance_date today ets NEW = Raised e →
       e = datetime_field_overflow
       ∧ ∃ et n,
           et ∈ ets
           ∧ devices.equipment_type_id NEW = Some (equipment_types.id et)
           ∧ equipment_types.maintenance_interval_days et = Some n
           ∧ ¬ (in_timestamp_range (base_date today NEW)
                ∧ in_timestamp_range (base_date today NEW + n)))
  ∧ (∀ depts NEW, ∃ OUT, check_request_escalation depts NEW = Returned OUT)
  ∧ (∀ (host : Compliance.Host) w expiryDate,
       Compliance.getComplianceStatus w expiryDate ∈ ["valid"; "expired"; "pending_renewal"]).
Proof.
  split; [|split; [|split; [|split]]].
  - intros today ets NEW Hraised.
    by apply update_next_maintenance_date_raised in Hraised as [[=] _].
  - intros today ets NEW et n Hnd Hin Hty Hn Hle Hbase Hsum. split; [|lia].
    exact (MaintenanceDate.typed_device_recomputed today ets NEW et n
             Hnd Hin Hty Hn Hbase Hsum).
  - exact update_next_maintenance_date_raised.
  - intros depts NEW. eexists. reflexivity.
  - intros host w expiryDate. unfold Compliance.getComplianceStatus.
    repeat case_match; compute_done.
Qed.

(** With an interval of -5 days the trigger returns the date five days
    before the evaluation date, 2023-12-27 for 2024-01-01. *)
Lemma policy_functions_errors_witness :
  update_next_maintenance_date jan_1_2024 equipment_types_table negative_interval_device =
    Returned (devices.set_next_maintenance_date
                (Some (Calendar.days_from_civil 2023 12 27)) negative_interval_device)
  ∧ Calendar.days_from_civil 2023 12 27 ≤ jan_1_2024.
Proof.
  destruct (proj1 (proj2 policy_functions_errors) jan_1_2024
              equipment_types_table negative_interval_device negative_interval (-5))
    as [Hrun Hle].
  - compute_done.
  - unfold equipment_types_table. do 4 apply list_elem_of_further. apply list_elem_of_here.
  - reflexivity.
  - reflexivity.
  - lia.
  - compute_done.
  - compute_done.
  - split; [exact Hrun | exact Hle].
Defined.
End ErrorHandling.

(** ** The compliance screen beyond the status rule *)
Module ComplianceScreenFacts.
Import Compliance ComplianceScreen Examples.
Local Open Scope Z_scope.

Lemma default_or_null (s : string) : default "" (or_null s) = s.
Proof. unfold or_null. case_bool_decide; by subst. Qed.

Lemma or_null_default (o : option string) :
  o ≠ Some "" → or_null (default "" o) = o.
Proof.
  intros Ho. unfold or_null. destruct o as [s|]; simpl; [|done].
  rewrite bool_decide_eq_false_2; [done | congruence].
Qed.

(** An empty form field and a NULL column read the same. *)
Lemma getComplianceStatus_default `{Host} (w : World) (o : option string) :
  getComplianceStatus w (Some (default "" o)) = getComplianceStatus w o.
Proof. by destruct o. Qed.

Lemma getComplianceStatus_state `{Host} (c : Z) (st1 st2 : State) (e : option string) :
  getComplianceStatus {| clock := c; state := st1 |} e =
  getComplianceStatus {| clock := c; state := st2 |} e.
Proof. reflexivity. Qed.

(** A text the [Date] constructor cannot read is never reported as expired
    or due for renewal: the status is valid. *)
Theorem unparsable_expiry_is_valid `{Host} (w : World) (s : string) :
  new_Date s = None →
  getComplianceStatus w (Some s) = "valid".
Proof.
  intros Hbad. unfold getComplianceStatus.
  destruct (falsy (Some s)); [done|]. simpl. by rewrite Hbad.
Qed.

Lemma unparsable_expiry_is_valid_witness :
  @getComplianceStatus utc_host fresh_screen (Some "end of next year") = "valid".
Proof.
  apply (@unparsable_expiry_is_valid utc_host fresh_screen "end of next year").
  reflexivity.
Defined.

(** A certificate reported expired at one instant is reported expired at
    every later instant, on any host. *)
Theorem expired_stays_expired `{Host} (w1 w2 : World) (expiryDate : option string) :
  clock w1 ≤ clock w2 →
  getComplianceStatus w1 expiryDate = "expired" →
  getComplianceStatus w2 expiryDate = "expired".
Proof.
  intros Hle. unfold getComplianceStatus.
  destruct (falsy expiryDate); [done|].
  destruct (new_Date (default "" expiryDate)) as [t|]; simpl.
  - destruct (bool_decide (t < clock w1)) eqn:Hlt.
    + intros _. apply bool_decide_eq_true in Hlt.
      rewrite bool_decide_eq_true_2 by lia. done.
    + by case_match.
  - discriminate.
Qed.

Lemma expired_stays_expired_witness :
  @getComplianceStatus utc_host
     {| clock := noon_jan_1_2024 + 365 * ms_per_day; state := state editing_screen |}
     (Some "2023-12-31") = "expired".
Proof.
  apply (@expired_stays_expired utc_host fresh_screen
           {| clock := noon_jan_1_2024 + 365 * ms_per_day; state := state editing_screen |}
           (Some "2023-12-31")).
  - vm_compute. discriminate.
  - reflexivity.
Defined.

(** Opening a record for editing and saving it at once writes the record's
    own device and type, its optional fields (an empty text becoming NULL),
    and a status computed afresh from its expiry date: the stored status is
    not carried over. *)
Theorem edit_then_save `{Host} (c : Z) (record : ComplianceRecord) (st : State) :
  data_device_id (recordData {| clock := c; state := startEdit record st |}) =
    device_id record
  ∧ data_compliance_type (recordData {| clock := c; state := startEdit record st |}) =
      compliance_type record
  ∧ (certificate_number record ≠ Some "" →
     data_certificate_number (recordData {| clock := c; state := startEdit record st |}) =
       certificate_number record)
  ∧ (issue_date record ≠ Some "" →
     data_issue_date (recordData {| clock := c; state := startEdit record st |}) =
       issue_date record)
  ∧ (expiry_date record ≠ Some "" →
     data_expiry_date (recordData {| clock := c; state := startEdit record st |}) =
       expiry_date record)
  ∧ (auditor_name record ≠ Some "" →
     data_auditor_name (recordData {| clock := c; state := startEdit record st |}) =
       auditor_name record)
  ∧ (notes record ≠ Some "" →
     data_notes (recordData {| clock := c; state := startEdit record st |}) =
       notes record)
  ∧ data_status (recordData {| clock := c; state := startEdit record st |}) =
      getComplianceStatus {| clock := c; state := st |} (expiry_date record).
Proof.
  unfold recordData. simpl.
  split; [done|]. split; [done|].
  split; [apply or_null_default|]. split; [apply or_null_default|].
  split; [apply or_null_default|]. split; [apply or_null_default|].
  split; [apply or_null_default|].
  rewrite getComplianceStatus_default. apply getComplianceStatus_state.
Qed.

(** The record stored as valid with expiry 2023-12-31, opened and saved at
    noon on 2024-01-01, is written as expired. *)
Lemma edit_then_save_witness :
  status stale_record = "valid"
  ∧ data_expiry_date (@recordData utc_host
        {| clock := noon_jan_1_2024; state := startEdit stale_record (state fresh_screen) |})
      = Some "2023-12-31"
  ∧ data_status (@recordData utc_host
        {| clock := noon_jan_1_2024; state := startEdit stale_record (state fresh_screen) |})
      = "expired".
Proof.
  destruct (@edit_then_save utc_host noon_jan_1_2024 stale_record (state fresh_screen))
    as (_ & _ & _ & _ & Hexp & _ & _ & Hstatus).
  split; [reflexivity|]. split.
  - rewrite Hexp; [reflexivity | discriminate].
  - rewrite Hstatus. reflexivity.
Defined.

(** Saving, opening the saved record and saving again at the same instant
    writes the same data: what the screen writes is a fixed point of its
    own edit form. *)
Theorem save_edit_save `{Host} (w : World) (record_id : string) (st : State) :
  recordData {| clock := clock w;
                state := startEdit (stored_record record_id (recordData w)) st |} =
  recordData w.
Proof.
  unfold recordData. simpl. rewrite !default_or_null. reflexivity.
Qed.

(** A record saved with the expiry field empty, as in the form [resetForm]
    restores, is written with a NULL expiry date and status valid, at any
    time and on any host. *)
Theorem empty_expiry_saved_valid `{Host} (w : World) :
  form_expiry_date (formData (state w)) = "" →
  data_expiry_date (recordData w) = None ∧ data_status (recordData w) = "valid".
Proof. intros Hempty. unfold recordData. simpl. by rewrite Hempty. Qed.

Lemma empty_expiry_saved_valid_witness :
  data_expiry_date (@recordData utc_host
      {| clock := noon_jan_1_2024; state := resetForm (state editing_screen) |}) = None
  ∧ data_status (@recordData utc_host
      {| clock := noon_jan_1_2024; state := resetForm (state editing_screen) |}) = "valid".
Proof.
  apply (@empty_expiry_saved_valid utc_host
           {| clock := noon_jan_1_2024; state := resetForm (state editing_screen) |}).
  reflexivity.
Defined.

Lemma count_le {A} (P Q : A → Prop) `{∀ x, Decision (P x)} `{∀ x, Decision (Q x)}
    (l : list A) :
  (∀ x, P x → Q x → False) →
  (length (filter P l) + length (filter Q l) ≤ length l)%nat.
Proof.
  intros Hdisj. induction l as [|a l IH]; [done|].
  rewrite !filter_cons.
  destruct (decide (P a)) as [HP|HP], (decide (Q a)) as [HQ|HQ]; simpl; try lia.
  destruct (Hdisj a HP HQ).
Qed.

(** The two counters never count a record twice: together they are at most
    the number of records listed. *)
Theorem counters_within_records (st : State) :
  (expiredRecords st + pendingRenewal st ≤ length (records st))%nat.
Proof.
  unfold expiredRecords, pendingRenewal. apply count_le.
  intros r He Hp. rewrite He in Hp. discriminate.
Qed.

(** Every status the screen computes has a badge of its own: the gray
    default colour and icon are never shown for it. *)
Theorem computed_status_has_badge `{Host} (w : World) (expiryDate : option string) :
  getStatusColor (getComplianceStatus w expiryDate) ≠ "bg-gray-100 text-gray-700"
  ∧ getStatusIcon (getComplianceStatus w expiryDate) ≠
      ("ShieldCheckIcon", "h-5 w-5 text-gray-500").
Proof.
  unfold getComplianceStatus. repeat case_match; split; discriminate.
Qed.
End ComplianceScreenFacts.

(** ** The two triggers beyond their rules *)
Module TriggerFacts.
Import Sql Policy Samples SqlFacts.
Local Open Scope Z_scope.

Lemma update_next_maintenance_date_unfold today ets NEW :
  update_next_maintenance_date today ets NEW =
    if if_true (sql_is_not_null (devices.equipment_type_id NEW)) then
      match select_next_maintenance_date today ets NEW with
      | Returned next => Returned (devices.set_next_maintenance_date next NEW)
      | Raised e => Raised e
      end
    else Returned NEW.
Proof. reflexivity. Qed.

(** The query reads the device's type and last maintenance date only. *)
Lemma select_ignores_next_date today ets NEW v :
  select_next_maintenance_date today ets (devices.set_next_maintenance_date v NEW) =
  select_next_maintenance_date today ets NEW.
Proof. reflexivity. Qed.

(** The maintenance trigger writes next_maintenance_date and no other
    column: whenever it returns a row, the other columns are those of the
    row written. *)
Theorem maintenance_trigger_frame today ets NEW OUT :
  update_next_maintenance_date today ets NEW = Returned OUT →
  devices.id OUT = devices.id NEW
  ∧ devices.name OUT = devices.name NEW
  ∧ devices.equipment_type_id OUT = devices.equipment_type_id NEW
  ∧ devices.location OUT = devices.location NEW
  ∧ devices.is_critical OUT = devices.is_critical NEW
  ∧ devices.last_maintenance_date OUT = devices.last_maintenance_date NEW
  ∧ devices.compliance_status OUT = devices.compliance_status NEW.
Proof.
  rewrite update_next_maintenance_date_unfold.
  destruct (if_true _); [|by intros [= <-]].
  destruct (select_next_maintenance_date today ets NEW); [|done].
  by intros [= <-].
Qed.

Lemma maintenance_trigger_frame_witness :
  ∃ OUT,
    update_next_maintenance_date jan_1_2024 equipment_types_table new_ultrasound =
      Returned OUT
    ∧ devices.name OUT = "Ultrasound 1"
    ∧ devices.last_maintenance_date OUT = None
    ∧ devices.compliance_status OUT = Some "compliant".
Proof.
  eexists. split; [reflexivity|].
  destruct (maintenance_trigger_frame jan_1_2024 equipment_types_table new_ultrasound
              _ eq_refl) as (_ & Hname & _ & _ & _ & Hlast & Hstatus).
  rewrite Hname, Hlast, Hstatus. done.
Defined.

(** For a device that has an equipment type, a next_maintenance_date sent
    by the client has no effect: whatever value is written, the trigger
    returns the same row. *)
Theorem supplied_next_date_ignored today ets NEW (v : option date) :
  is_Some (devices.equipment_type_id NEW) →
  update_next_maintenance_date today ets (devices.set_next_maintenance_date v NEW) =
  update_next_maintenance_date today ets NEW.
Proof.
  intros Hty%if_true_is_not_null.
  rewrite !update_next_maintenance_date_unfold.
  change (devices.equipment_type_id (devices.set_next_maintenance_date v NEW))
    with (devices.equipment_type_id NEW).
  rewrite Hty, select_ignores_next_date.
  by destruct (select_next_maintenance_date today ets NEW).
Qed.

Lemma supplied_next_date_ignored_witness :
  update_next_maintenance_date jan_1_2024 equipment_types_table
    (devices.set_next_maintenance_date (Some jun_1_2024) new_ultrasound) =
  update_next_maintenance_date jan_1_2024 equipment_types_table new_ultrasound.
Proof.
  apply (supplied_next_date_ignored jan_1_2024 equipment_types_table new_ultrasound
           (Some jun_1_2024)).
  eexists. reflexivity.
Defined.

(** Writing back, on the same day, the row the trigger returned changes
    nothing more. *)
Theorem maintenance_trigger_idempotent today ets NEW OUT :
  update_next_maintenance_date today ets NEW = Returned OUT →
  update_next_maintenance_date today ets OUT = Returned OUT.
Proof.
  rewrite update_next_maintenance_date_unfold.
  destruct (if_true (sql_is_not_null (devices.equipment_type_id NEW))) eqn:Hty.
  - destruct (select_next_maintenance_date today ets NEW) as [next|] eqn:Hsel; [|done].
    intros [= <-]. rewrite update_next_maintenance_date_unfold.
    change (devices.equipment_type_id (devices.set_next_maintenance_date next NEW))
      with (devices.equipment_type_id NEW).
    by rewrite Hty, select_ignores_next_date, Hsel.
  - intros [= <-]. rewrite update_next_maintenance_date_unfold. by rewrite Hty.
Qed.

Lemma maintenance_trigger_idempotent_witness :
  update_next_maintenance_date jan_1_2024 equipment_types_table
    (devices.set_next_maintenance_date (Some mar_31_2024) new_ultrasound) =
  Returned (devices.set_next_maintenance_date (Some mar_31_2024) new_ultrasound).
Proof.
  apply (maintenance_trigger_idempotent jan_1_2024 equipment_types_table new_ultrasound).
  reflexivity.
Defined.

(** A device that was never maintained gets a next maintenance date
    counted from the day of the write: written again k days later, its date
    is k days later too, and with a positive interval the date is always
    after the day of the write. Both days of writing and both sums are
    taken within the engine's timestamp range, where the trigger returns. *)
Theorem unmaintained_device_drifts (d1 d2 : date) ets NEW et n :
  NoDup (equipment_types.id <$> ets) →
  et ∈ ets →
  devices.equipment_type_id NEW = Some (equipment_types.id et) →
  equipment_types.maintenance_interval_days et = Some n →
  devices.last_maintenance_date NEW = None →
  in_timestamp_range d1 → in_timestamp_range (d1 + n) →
  in_timestamp_range d2 → in_timestamp_range (d2 + n) →
  ∃ next1 next2,
    update_next_maintenance_date d1 ets NEW =
      Returned (devices.set_next_maintenance_date (Some next1) NEW)
    ∧ update_next_maintenance_date d2 ets NEW =
        Returned (devices.set_next_maintenance_date (Some next2) NEW)
    ∧ next2 - next1 = d2 - d1
    ∧ (0 < n → d1 < next1 ∧ d2 < next2).
Proof.
  intros Hnd Hin Hty Hn Hlast Hd1 Hs1 Hd2 Hs2. exists (d1 + n), (d2 + n).
  assert (base_date d1 NEW = d1) as Hb1 by (unfold base_date; by rewrite Hlast).
  assert (base_date d2 NEW = d2) as Hb2 by (unfold base_date; by rewrite Hlast).
  rewrite (MaintenanceDate.typed_device_recomputed d1 ets NEW et n Hnd Hin Hty Hn)
    by (by rewrite Hb1).
  rewrite (MaintenanceDate.typed_device_recomputed d2 ets NEW et n Hnd Hin Hty Hn)
    by (by rewrite Hb2).
  rewrite Hb1, Hb2. repeat split; lia.
Qed.

Lemma unmaintained_device_drifts_witness :
  ∃ next1 next2,
    update_next_maintenance_date jan_1_2024 equipment_types_table new_ultrasound =
      Returned (devices.set_next_maintenance_date (Some next1) new_ultrasound)
    ∧ update_next_maintenance_date jun_1_2024 equipment_types_table new_ultrasound =
        Returned (devices.set_next_maintenance_date (Some next2) new_ultrasound)
    ∧ next2 - next1 = jun_1_2024 - jan_1_2024
    ∧ jun_1_2024 < next2.
Proof.
  destruct (unmaintained_device_drifts jan_1_2024 jun_1_2024 equipment_types_table
              new_ultrasound ultrasound 90) as (n1 & n2 & H1 & H2 & Hdiff & Hpos).
  - compute_done.
  - unfold equipment_types_table. apply list_elem_of_further, list_elem_of_here.
  - reflexivity.
  - reflexivity.
  - reflexivity.
  - compute_done.
  - compute_done.
  - compute_done.
  - compute_done.
  - exists n1, n2. split; [exact H1|]. split; [exact H2|]. split; [exact Hdiff|].
    apply Hpos. lia.
Defined.

(** For a device with a last maintenance date the result does not depend
    on the day of the write. *)
Theorem maintained_device_ignores_today (d1 d2 : date) ets NEW :
  is_Some (devices.last_maintenance_date NEW) →
  update_next_maintenance_date d1 ets NEW = update_next_maintenance_date d2 ets NEW.
Proof.
  intros [l Hl]. rewrite !update_next_maintenance_date_unfold.
  unfold select_next_maintenance_date, coalesce. by rewrite Hl.
Qed.

Lemma maintained_device_ignores_today_witness :
  update_next_maintenance_date jan_1_2024 equipment_types_table maintained_mri =
  update_next_maintenance_date jun_1_2024 equipment_types_table maintained_mri.
Proof.
  apply (maintained_device_ignores_today jan_1_2024 jun_1_2024 equipment_types_table
           maintained_mri).
  eexists. reflexivity.
Defined.

(** When the device's type has a NULL interval, or its equipment_type_id
    matches no row, the trigger clears next_maintenance_date, whatever date
    the write supplied. *)
Theorem missing_interval_clears_date today ets NEW :
  (∃ et, NoDup (equipment_types.id <$> ets)
         ∧ et ∈ ets
         ∧ devices.equipment_type_id NEW = Some (equipment_types.id et)
         ∧ equipment_types.maintenance_interval_days et = None)
  ∨ (∃ tid, devices.equipment_type_id NEW = Some tid
            ∧ tid ∉ equipment_types.id <$> ets) →
  ∃ OUT, update_next_maintenance_date today ets NEW = Returned OUT
         ∧ devices.next_maintenance_date OUT = None.
Proof.
  intros [(et & Hnd & Hin & Hty & Hn)|(tid & Hty & Hno)]; eexists.
  - split; [exact (MaintenanceDate.typed_device_null_interval today ets NEW et Hnd Hin Hty Hn)|].
    reflexivity.
  - split; [exact (MaintenanceDate.typed_device_unknown_type today ets NEW tid Hty Hno)|].
    reflexivity.
Qed.

(** A device written with next date 2024-06-01 and a type key that is not
    in the table comes back with no next date. *)
Lemma missing_interval_clears_date_witness :
  ∃ OUT,
    update_next_maintenance_date jan_1_2024 equipment_types_table
      (devices.mk "dev-7" "Loaner pump" (Some "et-retired") None (Some false) None
                  (Some jun_1_2024) (Some "compliant")) = Returned OUT
    ∧ devices.next_maintenance_date OUT = None.
Proof.
  apply (missing_interval_clears_date jan_1_2024 equipment_types_table
           (devices.mk "dev-7" "Loaner pump" (Some "et-retired") None (Some false) None
                       (Some jun_1_2024) (Some "compliant"))).
  right. exists "et-retired". split; [reflexivity | compute_done].
Defined.

Lemma escalate_priority_idempotent NEW :
  escalate_priority (escalate_priority NEW) = escalate_priority NEW.
Proof.
  unfold escalate_priority.
  destruct (if_true (sql_or (sql_eq (requests.urgency_level NEW) (Some "emergency"))
                            (sql_eq (requests.urgency_level NEW) (Some "critical"))))
    eqn:Hu; cbn [requests.urgency_level requests.set_priority]; by rewrite Hu.
Qed.

Lemma flag_patient_impact_idempotent depts NEW :
  flag_patient_impact depts (flag_patient_impact depts NEW) =
    flag_patient_impact depts NEW.
Proof.
  unfold flag_patient_impact.
  destruct (if_true (sql_in (requests.department_id NEW)
                            (critical_department_ids depts)))
    eqn:Hd; cbn [requests.department_id requests.set_patient_impact]; by rewrite Hd.
Qed.

Lemma escalation_rules_swap depts NEW :
  escalate_priority (flag_patient_impact depts NEW) =
    flag_patient_impact depts (escalate_priority NEW).
Proof.
  unfold flag_patient_impact, escalate_priority.
  destruct (if_true (sql_or (sql_eq (requests.urgency_level NEW) (Some "emergency"))
                            (sql_eq (requests.urgency_level NEW) (Some "critical"))))
    eqn:Hu;
    destruct (if_true (sql_in (requests.department_id NEW)
                              (critical_department_ids depts)))
      eqn:Hd;
    cbn [requests.urgency_level requests.department_id
         requests.set_priority requests.set_patient_impact];
    rewrite ?Hu, ?Hd; reflexivity.
Qed.

(** Writing back the row the escalation trigger returned (an UPDATE that
    changes nothing) changes nothing more. *)
Theorem escalation_trigger_idempotent depts NEW OUT :
  check_request_escalation depts NEW = Returned OUT →
  check_request_escalation depts OUT = Returned OUT.
Proof.
  rewrite Escalation.check_request_escalation_returns. intros [= <-].
  rewrite Escalation.check_request_escalation_returns.
  rewrite escalation_rules_swap, flag_patient_impact_idempotent.
  rewrite escalate_priority_idempotent. reflexivity.
Qed.

Lemma escalation_trigger_idempotent_witness :
  check_request_escalation departments_table
    (requests.set_priority (Some "urgent") emergency_low_request) =
  Returned (requests.set_priority (Some "urgent") emergency_low_request).
Proof.
  apply (escalation_trigger_idempotent departments_table emergency_low_request).
  reflexivity.
Defined.

(** The escalation trigger writes priority and patient_impact and no other
    column. *)
Theorem escalation_trigger_frame depts NEW :
  ∃ OUT,
    check_request_escalation depts NEW = Returned OUT
    ∧ requests.id OUT = requests.id NEW
    ∧ requests.title OUT = requests.title NEW
    ∧ requests.department_id OUT = requests.department_id NEW
    ∧ requests.urgency_level OUT = requests.urgency_level NEW
    ∧ requests.status OUT = requests.status NEW.
Proof.
  eexists. split; [apply Escalation.check_request_escalation_returns|].
  destruct (Escalation.flag_patient_impact_frame depts (escalate_priority NEW))
    as (-> & -> & -> & -> & _ & ->).
  destruct (Escalation.escalate_priority_frame NEW) as (-> & -> & -> & -> & _ & ->).
  done.
Qed.
End TriggerFacts.

(** ** User registration *)
Module RegistrationFacts.
Import Sql Registration SqlFacts.

Lemma admin_test_spec (email : option string) :
  if_true (sql_eq email (Some "mhiskall123@gmail.com")) = true
  ↔ email = Some "mhiskall123@gmail.com".
Proof.
  rewrite if_true_sql_eq. split.
  - by intros (x & -> & [= <-]).
  - intros ->. eauto.
Qed.

Lemma role_of_email (e : string) :
  (if if_true (sql_eq (Some e) (Some "mhiskall123@gmail.com"))
   then Some admin else Some user) =
  (if bool_decide (e = "mhiskall123@gmail.com") then Some admin else Some user).
Proof. simpl. by destruct (bool_decide _). Qed.

(** With an email the full name is never NULL. *)
Lemma full_name_not_null (j : option (gmap string json_field)) (e : string) :
  coalesce_null (json_get_text j "full_name") (Some e) =
    Some (default e (json_get_text j "full_name")).
Proof. by destruct (json_get_text j "full_name"). Qed.

(** Registration fails exactly when the new user has no email, or the
    generated key or the user already has a profile; a missing or null
    full_name in the metadata is never a cause, the email standing in. *)
Theorem handle_new_user_fails_iff gen_random_uuid NEW (table : list profiles.row) :
  (∃ e, handle_new_user gen_random_uuid NEW table = inl e)
  ↔ auth_users.email NEW = None
    ∨ gen_random_uuid ∈ profiles.id <$> table
    ∨ auth_users.id NEW ∈ profiles.user_id <$> table.
Proof.
  unfold handle_new_user, insert_profile.
  destruct (auth_users.email NEW) as [e|]; [|split; eauto].
  rewrite full_name_not_null.
  repeat case_bool_decide; split; eauto.
  - intros [? [=]].
  - intros [[=]|[?|?]]; done.
Qed.

(** A successful registration appends one profile: the user's key and
    email, the full name of the metadata or else the email, role admin
    exactly for the one address written in the function, no department;
    the profiles already there are kept. *)
Theorem handle_new_user_profile gen_random_uuid NEW (table table' : list profiles.row) :
  handle_new_user gen_random_uuid NEW table = inr table' →
  ∃ e p,
    auth_users.email NEW = Some e
    ∧ table' = table ++ [p]
    ∧ profiles.id p = gen_random_uuid
    ∧ profiles.user_id p = auth_users.id NEW
    ∧ profiles.email p = e
    ∧ profiles.full_name p =
        default e (json_get_text (auth_users.raw_user_meta_data NEW) "full_name")
    ∧ (profiles.role p = Some admin ↔ e = "mhiskall123@gmail.com")
    ∧ (profiles.role p = Some user ↔ e ≠ "mhiskall123@gmail.com")
    ∧ profiles.department p = None.
Proof.
  unfold handle_new_user, insert_profile.
  destruct (auth_users.email NEW) as [e|] eqn:He; [|done].
  rewrite full_name_not_null, role_of_email.
  repeat case_bool_decide; try done; intros [= <-];
    (eexists e, _; split; [done|]; split; [done|]; simpl; repeat split; congruence).
Qed.

(** A first user registering with the address in other letter case, and no
    name in the metadata, becomes a plain user named by the email. *)
Lemma handle_new_user_profile_witness :
  ∃ p,
    handle_new_user "p-1"
      (auth_users.mk "u-1" (Some "Mhiskall123@gmail.com") (Some ∅)) [] = inr [p]
    ∧ profiles.full_name p = "Mhiskall123@gmail.com"
    ∧ profiles.role p ≠ Some admin.
Proof.
  assert (handle_new_user "p-1"
            (auth_users.mk "u-1" (Some "Mhiskall123@gmail.com") (Some ∅)) [] =
          inr [profiles.mk "p-1" "u-1" "Mhiskall123@gmail.com" "Mhiskall123@gmail.com"
                           (Some user) None]) as Hrun by reflexivity.
  destruct (handle_new_user_profile _ _ _ _ Hrun)
    as (e & p & He & Htable & _ & _ & _ & Hname & Hadmin & _).
  injection He as <-. apply (app_inj_tail []) in Htable as [_ <-].
  eexists. split; [exact Hrun|]. split; [reflexivity|].
  rewrite Hadmin. discriminate.
Defined.

(** Registration keeps both keys of [profiles] unique. *)
Theorem handle_new_user_keeps_keys gen_random_uuid NEW (table table' : list profiles.row) :
  NoDup (profiles.id <$> table) →
  NoDup (profiles.user_id <$> table) →
  handle_new_user gen_random_uuid NEW table = inr table' →
  NoDup (profiles.id <$> table') ∧ NoDup (profiles.user_id <$> table').
Proof.
  intros Hid Huid. unfold handle_new_user, insert_profile.
  destruct (auth_users.email NEW) as [e|]; [|done].
  rewrite full_name_not_null.
  repeat case_bool_decide; try done. intros [= <-].
  rewrite !fmap_app. simpl. split; apply NoDup_app; (split; [done|]); split;
    try apply NoDup_singleton; intros x Hx ->%list_elem_of_singleton; done.
Qed.

Lemma handle_new_user_keeps_keys_witness :
  ∃ table',
    handle_new_user "p-2" (auth_users.mk "u-2" (Some "nurse@hospital.org") None)
      [profiles.mk "p-1" "u-1" "mhiskall123@gmail.com" "Admin" (Some admin) None]
      = inr table'
    ∧ NoDup (profiles.id <$> table') ∧ NoDup (profiles.user_id <$> table').
Proof.
  eexists. split; [reflexivity|].
  apply (handle_new_user_keeps_keys "p-2"
           (auth_users.mk "u-2" (Some "nurse@hospital.org") None)
           [profiles.mk "p-1" "u-1" "mhiskall123@gmail.com" "Admin" (Some admin) None]).
  - compute_done.
  - compute_done.
  - reflexivity.
Defined.
End RegistrationFacts.

(** ** Status updates of the admin screen *)
Module RequestAdminFacts.
Import RequestAdmin.

(** A status update always carries the new status and a time stamp; it
    carries the resolution notes and a completion time exactly when the new
    status is 'completed' and notes were entered, and never any other
    column. *)
Theorem completion_time_needs_notes (newStatus resolutionNotes now1 now2 : string) :
  updateData newStatus resolutionNotes now1 now2 !! "status" = Some newStatus
  ∧ updateData newStatus resolutionNotes now1 now2 !! "updated_at" = Some now1
  ∧ (newStatus = "completed" ∧ resolutionNotes ≠ "" →
     updateData newStatus resolutionNotes now1 now2 !! "completed_at" = Some now2
     ∧ updateData newStatus resolutionNotes now1 now2 !! "resolution_notes" =
         Some resolutionNotes)
  ∧ (¬ (newStatus = "completed" ∧ resolutionNotes ≠ "") →
     updateData newStatus resolutionNotes now1 now2 !! "completed_at" = None
     ∧ updateData newStatus resolutionNotes now1 now2 !! "resolution_notes" = None)
  ∧ (∀ k, is_Some (updateData newStatus resolutionNotes now1 now2 !! k) →
          k ∈ ["status"; "updated_at"; "resolution_notes"; "completed_at"]).
Proof.
  unfold updateData.
  destruct (bool_decide (newStatus = "completed")) eqn:Hs;
    destruct (bool_decide (resolutionNotes = "")) eqn:Hn; simpl;
    try apply bool_decide_eq_true in Hs; try apply bool_decide_eq_false in Hs;
    try apply bool_decide_eq_true in Hn; try apply bool_decide_eq_false in Hn;
    (split; [by simplify_map_eq|]); (split; [by simplify_map_eq|]);
    (split; [intros [? ?]; try done; by simplify_map_eq|]);
    (split; [intros Hnot; try (destruct Hnot; done); by simplify_map_eq|]);
    intros k [v Hk];
    repeat (apply lookup_insert_Some in Hk as [[<- _]|[_ Hk]];
            [compute_done|]);
    by rewrite lookup_empty in Hk.
Qed.

(** Marking a request completed with the notes box empty writes no
    completion time. *)
Lemma completion_time_needs_notes_witness :
  updateData "completed" "" "2024-01-01T12:00:00.000Z" "2024-01-01T12:00:00.001Z"
    !! "completed_at" = None.
Proof.
  apply (proj1 (proj2 (proj2 (proj2 (completion_time_needs_notes "completed" ""
           "2024-01-01T12:00:00.000Z" "2024-01-01T12:00:00.001Z"))))).
  intros [_ Hn]. by apply Hn.
Defined.
End RequestAdminFacts.

(** ** The other operations of the document-store service *)
Module FirestoreServiceFacts.
Import Firestore FirestoreService.

(** Reading after a write of one document. *)
Lemma getDoc_write (db : gmap string (gmap string (gmap string value)))
    (name docId : string) (data : gmap string value) (name' docId' : string) :
  getDoc (<[name := <[docId := data]> (default ∅ (db !! name))]> db) name' docId' =
    if decide ((name', docId') = (name, docId)) then Some data
    else getDoc db name' docId'.
Proof.
  unfold getDoc. destruct (decide (name' = name)) as [->|Hname].
  - rewrite lookup_insert_eq. simpl.
    destruct (decide (docId' = docId)) as [->|Hid].
    + rewrite lookup_insert_eq. by rewrite decide_True.
    + rewrite lookup_insert_ne by done. rewrite decide_False by congruence.
      by destruct (db !! name).
  - rewrite lookup_insert_ne by done. by rewrite decide_False by congruence.
Qed.

Lemma getDoc_delete (db : gmap string (gmap string (gmap string value)))
    (name docId name' docId' : string) :
  getDoc (deleteDoc db name docId) name' docId' =
    if decide ((name', docId') = (name, docId)) then None
    else getDoc db name' docId'.
Proof.
  unfold getDoc, deleteDoc. destruct (decide (name' = name)) as [->|Hname].
  - rewrite lookup_alter_eq.
    destruct (db !! name) as [c|]; simpl.
    + destruct (decide (docId' = docId)) as [->|Hid].
      * rewrite lookup_delete_eq. by rewrite decide_True.
      * rewrite lookup_delete_ne by done. by rewrite decide_False by congruence.
    + by case_decide.
  - rewrite lookup_alter_ne by done. by rewrite decide_False by congruence.
Qed.

Lemma updateDoc_result (db : gmap string (gmap string (gmap string value)))
    (name docId : string) (updates : gmap string value) :
  match getDoc db name docId with
  | None => updateDoc db name docId updates = inl not_found
  | Some old =>
      ∃ db', updateDoc db name docId updates = inr db'
             ∧ ∀ name' docId',
                 getDoc db' name' docId' =
                   if decide ((name', docId') = (name, docId)) then Some (updates ∪ old)
                   else getDoc db name' docId'
  end.
Proof.
  unfold updateDoc. destruct (getDoc db name docId) as [old|]; [|done].
  eexists. split; [done|]. intros. apply getDoc_write.
Qed.

(** [updateRequest] succeeds exactly on a request that exists; on any other
    id it fails with not-found and writes nothing. *)
Theorem updateRequest_needs_document (requestId : string)
    (updates : gmap string value)
    (db : gmap string (gmap string (gmap string value))) :
  (updateRequest requestId updates db = inl not_found
   ↔ getDoc db "requests" requestId = None)
  ∧ ((∃ db', updateRequest requestId updates db = inr db')
     ↔ is_Some (getDoc db "requests" requestId)).
Proof.
  unfold updateRequest.
  pose proof (updateDoc_result db "requests" requestId
                (<["updatedAt" := ServerTimestamp]> updates)) as Hres.
  destruct (getDoc db "requests" requestId) as [old|].
  - destruct Hres as (db' & -> & _). split; split; try done; eauto.
  - rewrite Hres. split; split; try done; by intros [? [=]].
Qed.

(** A successful [updateRequest] whose update names fields of the document
    itself (no dotted path) replaces the fields named, stamps updatedAt,
    keeps every other field of the request, and leaves every other document
    alone. *)
Theorem updateRequest_merges (requestId : string) (updates : gmap string value)
    (db db' : gmap string (gmap string (gmap string value))) :
  top_level_fields updates →
  updateRequest requestId updates db = inr db' →
  ∃ old new,
    getDoc db "requests" requestId = Some old
    ∧ getDoc db' "requests" requestId = Some new
    ∧ new !! "updatedAt" = Some ServerTimestamp
    ∧ (∀ k v, k ≠ "updatedAt" → updates !! k = Some v → new !! k = Some v)
    ∧ (∀ k, k ≠ "updatedAt" → updates !! k = None → new !! k = old !! k)
    ∧ (∀ name docId, (name, docId) ≠ ("requests", requestId) →
                     getDoc db' name docId = getDoc db name docId).
Proof.
  unfold updateRequest. intros _ Hrun.
  pose proof (updateDoc_result db "requests" requestId
                (<["updatedAt" := ServerTimestamp]> updates)) as Hres.
  destruct (getDoc db "requests" requestId) as [old|]; [|congruence].
  destruct Hres as (db'' & Hrun' & Hget). rewrite Hrun in Hrun'. injection Hrun' as <-.
  exists old, (<["updatedAt" := ServerTimestamp]> updates ∪ old).
  split; [done|]. split; [by rewrite Hget, decide_True|].
  split; [apply lookup_union_Some_l, lookup_insert_eq|].
  split; [|split].
  - intros k v Hk Hv. apply lookup_union_Some_l. by rewrite lookup_insert_ne.
  - intros k Hk Hv. rewrite lookup_union_r; [done|]. by rewrite lookup_insert_ne.
  - intros name docId Hne. by rewrite Hget, decide_False.
Qed.

(** A request created and then moved to 'completed': the status changes,
    the priority and the creation stamp stay. *)
Lemma updateRequest_merges_witness :
  ∃ db' new,
    updateRequest "r-1" {["status" := Str "completed"]}
      (createRequest "r-1" Examples.emergency_payload ∅).2 = inr db'
    ∧ getDoc db' "requests" "r-1" = Some new
    ∧ new !! "status" = Some (Str "completed")
    ∧ new !! "priority" = Some (Str "low")
    ∧ new !! "createdAt" = Some ServerTimestamp.
Proof.
  assert (∃ db', updateRequest "r-1" {["status" := Str "completed"]}
                   (createRequest "r-1" Examples.emergency_payload ∅).2 = inr db')
    as [db' Hrun] by (eexists; reflexivity).
  assert (top_level_fields {["status" := Str "completed"]}) as Hflat.
  { intros k [v Hk]. apply lookup_singleton_Some in Hk as [<- _]. reflexivity. }
  destruct (updateRequest_merges _ _ _ _ Hflat Hrun)
    as (old & new & Hold & Hnew & _ & Hset & Hkeep & _).
  exists db', new. split; [exact Hrun|]. split; [exact Hnew|].
  assert (old = request_document Examples.emergency_payload) as ->.
  { destruct (DocumentStore.createRequest_stored "r-1" Examples.emergency_payload ∅)
      as [_ Hget]. congruence. }
  split; [|split].
  - apply Hset; [done | reflexivity].
  - rewrite Hkeep; [reflexivity | done | reflexivity].
  - rewrite Hkeep; [reflexivity | done | reflexivity].
Defined.

(** [createProfile] never creates a profile: for a user without a profile
    document it fails with not-found, and when it succeeds the set of
    users that have a profile is the same as before. *)
Theorem createProfile_never_creates (userId : string) (profileData : gmap string value)
    (db : gmap string (gmap string (gmap string value))) :
  (getDoc db "profiles" userId = None →
   createProfile userId profileData db = inl not_found)
  ∧ (∀ db', createProfile userId profileData db = inr db' →
            ∀ name docId, is_Some (getDoc db' name docId) ↔ is_Some (getDoc db name docId)).
Proof.
  unfold createProfile.
  pose proof (updateDoc_result db "profiles" userId
                (<["updatedAt" := ServerTimestamp]>
                   (<["createdAt" := ServerTimestamp]> profileData))) as Hres.
  destruct (getDoc db "profiles" userId) as [old|] eqn:Hold.
  - destruct Hres as (db'' & -> & Hget). split; [done|].
    intros db' [= <-] name docId. rewrite Hget. case_decide as Heq; [|done].
    injection Heq as -> ->. rewrite Hold. split; eauto.
  - rewrite Hres. split; [done | intros ? [=]].
Qed.

Lemma createProfile_never_creates_witness :
  createProfile "u-1" {["fullName" := Str "Sarah Johnson"]} ∅ = inl not_found.
Proof.
  apply (proj1 (createProfile_never_creates "u-1" {["fullName" := Str "Sarah Johnson"]} ∅)).
  reflexivity.
Defined.

(** [getProfile] returns null exactly when the profile document is missing;
    otherwise it returns the document's fields with an id, and a field
    named id stored in the document takes the place of the document id. *)
Theorem getProfile_id (db : gmap string (gmap string (gmap string value)))
    (userId : string) :
  (getProfile db userId = None ↔ getDoc db "profiles" userId = None)
  ∧ (∀ data, getDoc db "profiles" userId = Some data →
       ∃ profile,
         getProfile db userId = Some profile
         ∧ profile !! "id" = Some (default (Str userId) (data !! "id"))
         ∧ ∀ k, k ≠ "id" → profile !! k = data !! k).
Proof.
  unfold getProfile. split.
  - by destruct (getDoc db "profiles" userId).
  - intros data ->. eexists. split; [done|]. unfold with_id. split.
    + rewrite lookup_union. rewrite lookup_singleton_eq.
      by destruct (data !! "id").
    + intros k Hk. rewrite lookup_union, lookup_singleton_ne by done.
      by destruct (data !! k).
Qed.

(** [deleteDevice] removes the device and nothing else; deleting a device
    that does not exist changes no document. *)
Theorem deleteDevice_removes (deviceId : string)
    (db : gmap string (gmap string (gmap string value))) :
  getDoc (deleteDevice deviceId db) "devices" deviceId = None
  ∧ (∀ name docId, (name, docId) ≠ ("devices", deviceId) →
                   getDoc (deleteDevice deviceId db) name docId = getDoc db name docId)
  ∧ (getDoc db "devices" deviceId = None →
     ∀ name docId, getDoc (deleteDevice deviceId db) name docId = getDoc db name docId).
Proof.
  unfold deleteDevice. split; [|split].
  - by rewrite getDoc_delete, decide_True.
  - intros name docId Hne. by rewrite getDoc_delete, decide_False.
  - intros Hnone name docId. rewrite getDoc_delete.
    case_decide as Heq; [|done]. by injection Heq as -> ->.
Qed.

(** [createRequest] changes no document other than the one it stores, and
    under an id that is not in use, as the ids the store chooses are, every
    document there was reads back unchanged. *)
Theorem createRequest_adds_one (autoId : string) (requestData : gmap string value)
    (db : gmap string (gmap string (gmap string value))) :
  (∀ name docId, (name, docId) ≠ ("requests", autoId) →
     getDoc (createRequest autoId requestData db).2 name docId = getDoc db name docId)
  ∧ (getDoc db "requests" autoId = None →
     ∀ name docId data, getDoc db name docId = Some data →
       getDoc (createRequest autoId requestData db).2 name docId = Some data).
Proof.
  unfold createRequest, addDoc. simpl. split.
  - intros name docId Hne. by rewrite getDoc_write, decide_False.
  - intros Hfree name docId data Hdata. rewrite getDoc_write.
    case_decide as Heq; [|done]. injection Heq as -> ->. congruence.
Qed.

(** [createIncident] stores the incident with status 'open', whatever
    status the payload carries, and a creation stamp; unlike [createRequest]
    it adds no updatedAt. *)
Theorem createIncident_opens (autoId : string) (incidentData : gmap string value)
    (db : gmap string (gmap string (gmap string value))) :
  ∃ doc,
    getDoc (createIncident autoId incidentData db).2 "incidents"
           (createIncident autoId incidentData db).1 = Some doc
    ∧ doc !! "status" = Some (Str "open")
    ∧ doc !! "createdAt" = Some ServerTimestamp
    ∧ doc !! "updatedAt" = incidentData !! "updatedAt"
    ∧ ∀ k, k ∉ ["status"; "createdAt"] → doc !! k = incidentData !! k.
Proof.
  unfold createIncident, addDoc. simpl. eexists.
  split; [by rewrite getDoc_write, decide_True|].
  split; [by simplify_map_eq|]. split; [by simplify_map_eq|].
  split; [by simplify_map_eq|].
  intros k Hk. rewrite !lookup_insert_ne; [done| |]; intros <-; apply Hk; compute_done.
Qed.

(** After a successful [updateProfile] whose update names fields of the
    document itself (no dotted path), [getProfile] returns the updated
    fields; an update that carries a field named id changes the id the
    profile is returned with. *)
Theorem updateProfile_then_getProfile (userId : string) (updates : gmap string value)
    (db db' : gmap string (gmap string (gmap string value))) :
  top_level_fields updates →
  updateProfile userId updates db = inr db' →
  ∃ profile,
    getProfile db' userId = Some profile
    ∧ profile !! "updatedAt" = Some ServerTimestamp
    ∧ (∀ k v, k ≠ "updatedAt" → updates !! k = Some v → profile !! k = Some v).
Proof.
  unfold updateProfile. intros _ Hrun.
  pose proof (updateDoc_result db "profiles" userId
                (<["updatedAt" := ServerTimestamp]> updates)) as Hres.
  destruct (getDoc db "profiles" userId) as [old|]; [|congruence].
  destruct Hres as (db'' & Hrun' & Hget). rewrite Hrun in Hrun'. injection Hrun' as <-.
  unfold getProfile. rewrite Hget, decide_True by done.
  eexists. split; [done|]. unfold with_id. split.
  - apply lookup_union_Some_l, lookup_union_Some_l, lookup_insert_eq.
  - intros k v Hk Hv. apply lookup_union_Some_l, lookup_union_Some_l.
    by rewrite lookup_insert_ne.
Qed.

(** A profile stored under u-1 and updated with id := "u-2" is returned by
    [getProfile "u-1"] with id u-2. *)
Lemma updateProfile_then_getProfile_witness :
  ∃ db' profile,
    updateProfile "u-1" {["id" := Str "u-2"]}
      {["profiles" := {["u-1" := {["fullName" := Str "Sarah Johnson"]}]}]} = inr db'
    ∧ getProfile db' "u-1" = Some profile
    ∧ profile !! "id" = Some (Str "u-2").
Proof.
  assert (∃ db', updateProfile "u-1" {["id" := Str "u-2"]}
            {["profiles" := {["u-1" := {["fullName" := Str "Sarah Johnson"]}]}]} = inr db')
    as [db' Hrun] by (eexists; reflexivity).
  assert (top_level_fields {["id" := Str "u-2"]}) as Hflat.
  { intros k [v Hk]. apply lookup_singleton_Some in Hk as [<- _]. reflexivity. }
  destruct (updateProfile_then_getProfile _ _ _ _ Hflat Hrun)
    as (profile & Hget & _ & Hset).
  exists db', profile. split; [exact Hrun|]. split; [exact Hget|].
  apply Hset; [done | reflexivity].
Defined.
End FirestoreServiceFacts.

(** ** The request form *)
Module RequestModalFacts.
Import Firestore RequestModal.

Lemma handleSubmit_document (profile_id : string) (f : FormData) (autoId : string)
    (db : gmap string (gmap string (gmap string value))) :
  getDoc (handleSubmit (Some profile_id) f autoId db) "requests" autoId =
    Some (request_document (request_payload profile_id f)).
Proof.
  unfold handleSubmit.
  by destruct (DocumentStore.createRequest_stored autoId
                 (request_payload profile_id f) db) as [_ ->].
Qed.

Lemma request_payload_fields (profile_id : string) (f : FormData) :
  request_payload profile_id f !! "userId" = Some (Str profile_id)
  ∧ request_payload profile_id f !! "requestTypeId" = Some (Str (requestTypeId f))
  ∧ request_payload profile_id f !! "departmentId" = Some (str_or_null (departmentId f))
  ∧ request_payload profile_id f !! "title" = Some (Str (title f))
  ∧ request_payload profile_id f !! "description" = Some (Str (description f))
  ∧ request_payload profile_id f !! "priority" = Some (Str (priority f))
  ∧ request_payload profile_id f !! "urgencyLevel" = Some (Str (urgencyLevel f))
  ∧ request_payload profile_id f !! "patientImpact" = Some (Bool (patientImpact f))
  ∧ request_payload profile_id f !! "estimatedDowntime" =
      Some (str_or_null (estimatedDowntime f)).
Proof. unfold request_payload. repeat split; by simplify_map_eq. Qed.

(** Submitting the form without a signed-in profile writes nothing. With a
    profile, the request is stored under the profile's id with status
    'pending' and with the priority, urgency level and patient-impact flag
    exactly as the form holds them; an empty department or downtime is
    stored as null. *)
Theorem handleSubmit_stores_form (f : FormData) (autoId : string)
    (db : gmap string (gmap string (gmap string value))) :
  handleSubmit None f autoId db = db
  ∧ ∀ profile_id, ∃ doc,
      getDoc (handleSubmit (Some profile_id) f autoId db) "requests" autoId = Some doc
      ∧ doc !! "userId" = Some (Str profile_id)
      ∧ doc !! "status" = Some (Str "pending")
      ∧ doc !! "priority" = Some (Str (priority f))
      ∧ doc !! "urgencyLevel" = Some (Str (urgencyLevel f))
      ∧ doc !! "patientImpact" = Some (Bool (patientImpact f))
      ∧ (departmentId f = "" → doc !! "departmentId" = Some Null)
      ∧ (departmentId f ≠ "" → doc !! "departmentId" = Some (Str (departmentId f)))
      ∧ (estimatedDowntime f = "" → doc !! "estimatedDowntime" = Some Null).
Proof.
  split; [reflexivity|]. intros profile_id.
  exists (request_document (request_payload profile_id f)).
  split; [apply handleSubmit_document|].
  destruct (request_payload_fields profile_id f)
    as (Huser & _ & Hdep & _ & _ & Hprio & Hurg & Himpact & Hdown).
  split; [by rewrite DocumentStore.request_document_other by compute_done|].
  split; [apply DocumentStore.request_document_status|].
  split; [by rewrite DocumentStore.request_document_other by compute_done|].
  split; [by rewrite DocumentStore.request_document_other by compute_done|].
  split; [by rewrite DocumentStore.request_document_other by compute_done|].
  split; [|split].
  - intros Hempty. rewrite DocumentStore.request_document_other by compute_done.
    rewrite Hdep. unfold str_or_null. by rewrite bool_decide_eq_true_2.
  - intros Hfull. rewrite DocumentStore.request_document_other by compute_done.
    rewrite Hdep. unfold str_or_null. by rewrite bool_decide_eq_false_2.
  - intros Hempty. rewrite DocumentStore.request_document_other by compute_done.
    rewrite Hdown. unfold str_or_null. by rewrite bool_decide_eq_true_2.
Qed.

(** The two back ends part ways on an emergency request entered through
    the emergency form with its selects untouched: the document store
    keeps the form's priority 'medium', while the relational trigger
    returns a row of that urgency and priority with priority 'urgent'. *)
Theorem emergency_form_keeps_medium
    (profile_id requestTypeId' departmentId' title' description' estimatedDowntime' : string)
    (autoId : string) (db : gmap string (gmap string (gmap string value))) :
  (∃ doc,
     getDoc (handleSubmit (Some profile_id)
               (fill_in requestTypeId' departmentId' title' description' estimatedDowntime'
                        (reset_form emergency))
               autoId db) "requests" autoId = Some doc
     ∧ doc !! "urgencyLevel" = Some (Str "emergency")
     ∧ doc !! "patientImpact" = Some (Bool true)
     ∧ doc !! "priority" = Some (Str "medium"))
  ∧ (∀ departments NEW,
       Sql.requests.urgency_level NEW = Some "emergency" →
       Sql.requests.priority NEW = Some "medium" →
       ∃ OUT, Sql.check_request_escalation departments NEW = Sql.Returned OUT
              ∧ Sql.requests.priority OUT = Some "urgent").
Proof.
  split.
  - eexists. split; [apply handleSubmit_document|].
    destruct (request_payload_fields profile_id
                (fill_in requestTypeId' departmentId' title' description'
                         estimatedDowntime' (reset_form emergency)))
      as (_ & _ & _ & _ & _ & Hprio & Hurg & Himpact & _).
    rewrite !DocumentStore.request_document_other by compute_done. done.
  - intros departments NEW Hurg _. eexists.
    split; [apply Escalation.check_request_escalation_returns|].
    destruct (Escalation.flag_patient_impact_frame departments (Sql.escalate_priority NEW))
      as (_ & _ & _ & _ & -> & _).
    rewrite Escalation.escalate_priority_taken; [done|]. by left.
Qed.
End RequestModalFacts.
